(** * Web page to Markdown: the locate / sanitize / transform pipeline

    A shallow embedding of [s1.py].  The script glues three third-party
    libraries together: BeautifulSoup (with the [html.parser] tree builder)
    finds the content region, [lxml.html.clean.Cleaner] removes noise, and
    [markdownify.MarkdownConverter] emits Markdown.

    The four functions of the script are embedded as they are written.  The
    libraries appear in two ways:
    - what they do on a parsed tree (CSS selection, the cleaner's passes,
      the converter's options and heading rule) is modelled on a common
      tree type, following the libraries' documented behaviour;
    - what crosses the string boundary (the two HTML parsers, lxml's
      serializer, the browser session) is a field of the [Library] class,
      so the general theorems hold for every implementation of it.  A
      small executable instance, [sample.library], runs concrete inputs. *)

From stdpp Require Import gmap strings list.
From Stdlib Require Import Ascii.

Set Warnings "-register-all".

(** ** Trees shared by the two parsers *)

(** An HTML tree: character data, comments and elements.  Attribute values
    are strings (bs4 stores a missing value as the empty string);
    multi-valued attributes such as [class] are kept as their
    space-separated text.  lxml's [text]/[tail] slots are [Text] children
    and siblings here; a parser leaves no two of them adjacent. *)
Inductive node : Type :=
| Text (s : string)
| Comment (s : string)
| Elem (tag : string) (attrs : list (string * string)) (children : list node).

Definition tag_of (n : node) : option string :=
  match n with Elem tag _ _ => Some tag | _ => None end.

Definition is_element (n : node) : bool :=
  match n with Elem _ _ _ => true | _ => false end.

Definition is_text (n : node) : bool :=
  match n with Text _ => true | _ => false end.

(** Every node below a list of siblings, in document order (pre-order). *)
Fixpoint descendants_of (n : node) : list node :=
  n :: match n with
       | Elem _ _ children => flat_map descendants_of children
       | _ => []
       end.

Definition descendants (forest : list node) : list node :=
  flat_map descendants_of forest.

(** The character data of a forest, in document order. *)
Definition text_nodes (forest : list node) : list string :=
  omap (λ n, match n with Text s => Some s | _ => None end)
       (descendants forest).

(** ** Strings *)

(** Python's [\s] on the ASCII range. *)
Definition is_space (c : ascii) : bool :=
  let n := nat_of_ascii c in
  (Nat.leb 9 n && Nat.leb n 13) || (Nat.leb 28 n && Nat.leb n 32).

(** [re.findall(r"\S+", s)]: the maximal runs of non-blank characters. *)
Fixpoint words_go (s : string) (cur : string) : list string :=
  match s with
  | EmptyString => if String.eqb cur "" then [] else [cur]
  | String c r =>
      if is_space c
      then (if String.eqb cur "" then words_go r "" else cur :: words_go r "")
      else words_go r (cur +:+ String c "")
  end.

Definition nonwhitespace_words (s : string) : list string := words_go s "".

(** [s.strip()] is empty. *)
Fixpoint is_blank (s : string) : bool :=
  match s with
  | EmptyString => true
  | String c r => is_space c && is_blank r
  end.

Definition startswith (p s : string) : bool := String.prefix p s.

Fixpoint concat_strings (l : list string) : string :=
  match l with
  | [] => ""
  | s :: r => s +:+ concat_strings r
  end.

Fixpoint repeat_char (c : ascii) (n : nat) : string :=
  match n with
  | O => ""
  | S k => String c (repeat_char c k)
  end.

(** ** Python values that the script tests for truth *)

(** [bool(x)] for an [Optional[str]]: [None] and [''] are false. *)
Definition truthy_str (x : option string) : bool :=
  match x with
  | None => false
  | Some s => negb (String.eqb s "")
  end.

(** [bool(x)] for an optional [Tag]: bs4 defines [Tag.__bool__] as
    constantly true, so only [None] is false. *)
Definition truthy_tag (x : option node) : bool :=
  match x with
  | None => false
  | Some _ => true
  end.

(** ** BeautifulSoup on a parsed tree *)

Module bs4.

(** The CSS selectors the script uses: a type selector, [.class] or
    [#id]. *)
Inductive selector : Type :=
| ByTag (name : string)
| ByClass (name : string)
| ById (name : string).

Definition parse_selector (s : string) : selector :=
  match s with
  | String "."%char r => ByClass r
  | String "#"%char r => ById r
  | _ => ByTag s
  end.

Fixpoint get_attr (key : string) (attrs : list (string * string)) : option string :=
  match attrs with
  | [] => None
  | (k, v) :: r => if String.eqb k key then Some v else get_attr key r
  end.

Definition has_class (name : string) (attrs : list (string * string)) : bool :=
  match get_attr "class" attrs with
  | Some v => existsb (String.eqb name) (nonwhitespace_words v)
  | None => false
  end.

Definition matches (sel : selector) (n : node) : bool :=
  match n with
  | Elem tag attrs _ =>
      match sel with
      | ByTag name => String.eqb tag name
      | ByClass name => has_class name attrs
      | ById name =>
          match get_attr "id" attrs with
          | Some v => String.eqb v name
          | None => false
          end
      end
  | _ => false
  end.

(** The search behind [select_one] and [find]: walk the descendants in
    document order and stop at the first match. *)
Fixpoint search_node (p : node → bool) (n : node) : option node :=
  if p n then Some n
  else match n with
       | Elem _ _ children =>
           (fix search_list (l : list node) : option node :=
              match l with
              | [] => None
              | c :: r =>
                  match search_node p c with
                  | Some hit => Some hit
                  | None => search_list r
                  end
              end) children
       | _ => None
       end.

Fixpoint search (p : node → bool) (forest : list node) : option node :=
  match forest with
  | [] => None
  | c :: r =>
      match search_node p c with
      | Some hit => Some hit
      | None => search p r
      end
  end.

(** [soup.select_one(selector)] *)
Definition select_one (soup : list node) (sel : string) : option node :=
  search (matches (parse_selector sel)) soup.

(** [soup.find(name)] *)
Definition find (soup : list node) (name : string) : option node :=
  search (matches (ByTag name)) soup.

(** *** [str(tag)] with the default ("minimal") formatter *)

Fixpoint substitute_xml (s : string) : string :=
  match s with
  | EmptyString => ""
  | String c r =>
      (if Ascii.eqb c "&" then "&amp;"
       else if Ascii.eqb c "<" then "&lt;"
       else if Ascii.eqb c ">" then "&gt;"
       else String c "") +:+ substitute_xml r
  end.

Fixpoint contains_char (c : ascii) (s : string) : bool :=
  match s with
  | EmptyString => false
  | String d r => Ascii.eqb c d || contains_char c r
  end.

Fixpoint replace_dquote (s : string) : string :=
  match s with
  | EmptyString => ""
  | String c r =>
      (if Ascii.eqb c (ascii_of_nat 34) then "&quot;" else String c "") +:+ replace_dquote r
  end.

Definition squote : string := String (ascii_of_nat 39) "".
Definition dquote : string := String (ascii_of_nat 34) "".

Definition quoted_attribute_value (v : string) : string :=
  if contains_char (ascii_of_nat 34) v then
    if contains_char (ascii_of_nat 39) v
    then dquote +:+ replace_dquote v +:+ dquote
    else squote +:+ v +:+ squote
  else dquote +:+ v +:+ dquote.

Definition decode_attr (kv : string * string) : string :=
  " " +:+ kv.1 +:+ "=" +:+ quoted_attribute_value (substitute_xml kv.2).

Definition void_elements : list string :=
  ["area"; "base"; "br"; "col"; "embed"; "hr"; "img"; "input"; "keygen";
   "link"; "menuitem"; "meta"; "param"; "source"; "track"; "wbr";
   "basefont"; "bgsound"; "command"; "frame"; "image"; "isindex";
   "nextid"; "spacer"].

Definition cdata_containing (tag : string) : bool :=
  String.eqb tag "script" || String.eqb tag "style".

Fixpoint decode (raw : bool) (n : node) : string :=
  match n with
  | Text s => if raw then s else substitute_xml s
  | Comment s => "<!--" +:+ s +:+ "-->"
  | Elem tag attrs children =>
      let open := "<" +:+ tag +:+ concat_strings (map decode_attr attrs) in
      match children with
      | [] =>
          if existsb (String.eqb tag) void_elements
          then open +:+ "/>"
          else open +:+ "></" +:+ tag +:+ ">"
      | _ =>
          open +:+ ">"
            +:+ concat_strings (map (decode (cdata_containing tag)) children)
            +:+ "</" +:+ tag +:+ ">"
      end
  end.

Definition str (n : node) : string := decode false n.

End bs4.

(** ** Exceptions, results and standard output *)

(** A Python exception: its class and its message. *)
Record exn : Type := Exception { exn_class : string; exn_message : string }.

(** A call either returns a value or raises. *)
Inductive outcome (A : Type) : Type :=
| Returns (a : A)
| Raises (e : exn).
Arguments Returns {A} a.
Arguments Raises {A} e.

#[global] Instance outcome_ret : MRet outcome := λ A a, Returns a.

#[global] Instance outcome_bind : MBind outcome := λ A B f x,
  match x with
  | Returns a => f a
  | Raises e => Raises e
  end.

(** A run of the orchestrator: the lines it printed, and how it ended. *)
Definition run (A : Type) : Type := (list string * outcome A)%type.

#[global] Instance run_ret : MRet run := λ A a, ([], Returns a).

#[global] Instance run_bind : MBind run := λ A B f x,
  match x with
  | (out, Returns a) => let '(out', r) := f a in (out ++ out', r)
  | (out, Raises e) => (out, Raises e)
  end.

Definition print (line : string) : run unit := ([line], Returns tt).

Definition call {A : Type} (x : outcome A) : run A := ([], x).

(** ** Keyword arguments *)

(** The Python values that appear as option values. *)
Inductive pyvalue : Type :=
| PyNone
| PyBool (b : bool)
| PyInt (n : nat)
| PyStr (s : string)
| PyList (items : list pyvalue)
| PyTuple (items : list pyvalue).

(** ** The cleaner's configuration *)

(** The switches of [lxml.html.clean.Cleaner] that are read below. *)
Record Cleaner : Type := {
  scripts : bool;
  javascript : bool;
  comments : bool;
  style : bool;
  inline_style : bool;
  links : bool;
  meta : bool;
  page_structure : bool;
  embedded : bool;
  frames : bool;
  forms : bool;
  annoying_tags : bool;
  remove_unknown_tags : bool;
  safe_attrs_only : bool;
  add_nofollow : bool
}.

(** The class attributes of [Cleaner]; [inline_style] is [None] there and
    takes the value of [style] when the constructor is not given one. *)
Definition Cleaner_defaults : Cleaner :=
  {| scripts := true; javascript := true; comments := true; style := false;
     inline_style := false; links := true; meta := true;
     page_structure := true; embedded := true; frames := true;
     forms := true; annoying_tags := true; remove_unknown_tags := true;
     safe_attrs_only := true; add_nofollow := false |}.

(** [lxml.html.defs.frame_tags] *)
Definition frame_tags : gset string := {[ "frameset"; "frame"; "noframes" ]}.

(** The tags dropped with everything inside them. *)
Definition kill_tags (c : Cleaner) : gset string :=
  (if scripts c then {[ "script" ]} else ∅)
  ∪ (if style c then {[ "style" ]} else ∅)
  ∪ (if links c then {[ "link" ]} else ∅)
  ∪ (if meta c then {[ "meta" ]} else ∅)
  ∪ (if embedded c then {[ "applet" ]} else ∅)
  ∪ (if frames c then frame_tags else ∅)
  ∪ (if forms c then {[ "button"; "input"; "select"; "textarea" ]} else ∅).

(** The tags whose element is dropped while its content stays. *)
Definition remove_tags (c : Cleaner) : gset string :=
  (if page_structure c then {[ "head"; "html"; "title" ]} else ∅)
  ∪ (if embedded c
     then {[ "iframe"; "embed"; "layer"; "object"; "param" ]} else ∅)
  ∪ (if forms c then {[ "form" ]} else ∅)
  ∪ (if annoying_tags c then {[ "blink"; "marquee" ]} else ∅).

Definition in_tags (tag : string) (tags : gset string) : bool :=
  bool_decide (tag ∈ tags).

(** [needle in hay] *)
Fixpoint contains (needle hay : string) : bool :=
  String.prefix needle hay ||
  match hay with
  | EmptyString => false
  | String _ r => contains needle r
  end.

(** [el.set(key, value)]: an attribute keeps its place, a new one goes
    last. *)
Fixpoint set_attr (key value : string) (attrs : list (string * string))
    : list (string * string) :=
  match attrs with
  | [] => [(key, value)]
  | (k, v) :: r =>
      if String.eqb k key then (k, value) :: r
      else (k, v) :: set_attr key value r
  end.

(** The first character of XPath's [normalize-space(s)], if any. *)
Fixpoint normalize_space_head (s : string) : option ascii :=
  match s with
  | EmptyString => None
  | String c r =>
      let n := nat_of_ascii c in
      if Nat.eqb n 32 || Nat.eqb n 9 || Nat.eqb n 10 || Nat.eqb n 13
      then normalize_space_head r
      else Some c
  end.

(** The test of [_find_external_links]:
    [normalize-space(@href) and substring(normalize-space(@href),1,1) != '#'] *)
Definition is_external_href (href : string) : bool :=
  match normalize_space_head href with
  | Some c => negb (Ascii.eqb c "#")
  | None => false
  end.

(** The [rel] value written by the [add_nofollow] pass, or [None] when the
    anchor is left as it is. *)
Definition nofollow_rel (rel : option string) : option string :=
  match rel with
  | Some r =>
      if negb (String.eqb r "") then
        if contains "nofollow" r && contains " nofollow " (" " +:+ r +:+ " ")
        then None
        else Some (r +:+ " nofollow")
      else Some "nofollow"
  | None => Some "nofollow"
  end.

Definition mark_nofollow (tag : string) (attrs : list (string * string))
    : list (string * string) :=
  if String.eqb tag "a" then
    match bs4.get_attr "href" attrs with
    | Some href =>
        if is_external_href href then
          match nofollow_rel (bs4.get_attr "rel" attrs) with
          | Some rel => set_attr "rel" rel attrs
          | None => attrs
          end
        else attrs
    | None => attrs
    end
  else attrs.

(** The last pass of the cleaner, over the whole tree. *)
Fixpoint add_nofollow_pass (n : node) : node :=
  match n with
  | Elem tag attrs children =>
      Elem tag (mark_nofollow tag attrs) (map add_nofollow_pass children)
  | _ => n
  end.

(** ** markdownify's options and heading rule *)

Definition ATX : string := "atx".
Definition ATX_CLOSED : string := "atx_closed".
Definition UNDERLINED : string := "underlined".
Definition SPACES : string := "spaces".
Definition ASTERISK : string := "*".

(** [MarkdownConverter.DefaultOptions] *)
Definition DefaultOptions : gmap string pyvalue :=
  list_to_map
    [("autolinks", PyBool true);
     ("bullets", PyStr "*+-");
     ("code_language", PyStr "");
     ("code_language_callback", PyNone);
     ("convert", PyNone);
     ("default_title", PyBool false);
     ("escape_asterisks", PyBool true);
     ("escape_underscores", PyBool true);
     ("heading_style", PyStr UNDERLINED);
     ("keep_inline_images_in", PyList []);
     ("newline_style", PyStr SPACES);
     ("strip", PyNone);
     ("strong_em_symbol", PyStr ASTERISK);
     ("sub_symbol", PyStr "");
     ("sup_symbol", PyStr "");
     ("wrap", PyBool false);
     ("wrap_width", PyInt 80)].

Definition is_none (v : option pyvalue) : bool :=
  match v with
  | Some PyNone | None => true
  | _ => false
  end.

(** The constructor [MarkdownConverter], given keyword arguments: the
    defaults updated with them, whatever their names; [strip] and [convert] exclude each
    other. *)
Definition MarkdownConverter (kwargs : list (string * pyvalue))
    : outcome (gmap string pyvalue) :=
  let options := foldl (λ m kv, <[kv.1 := kv.2]> m) DefaultOptions kwargs in
  if negb (is_none (options !! "strip")) && negb (is_none (options !! "convert"))
  then Raises (Exception "ValueError"
         "You may specify either tags to strip or tags to convert, but not both.")
  else Returns options.

Definition lower_char (c : ascii) : ascii :=
  let n := nat_of_ascii c in
  if Nat.leb 65 n && Nat.leb n 90 then ascii_of_nat (n + 32) else c.

Fixpoint lower (s : string) : string :=
  match s with
  | EmptyString => ""
  | String c r => String (lower_char c) (lower r)
  end.

Fixpoint lstrip (s : string) : string :=
  match s with
  | String c r => if is_space c then lstrip r else s
  | EmptyString => ""
  end.

Fixpoint rstrip (s : string) : string :=
  match s with
  | String c r => if is_blank s then "" else String c (rstrip r)
  | EmptyString => ""
  end.

Definition strip (s : string) : string := rstrip (lstrip s).

Definition is_digit (c : ascii) : bool :=
  let n := nat_of_ascii c in Nat.leb 48 n && Nat.leb n 57.

(** [int] of the leading digits of [s], read after [acc]. *)
Fixpoint leading_int (s : string) (acc : nat) : nat :=
  match s with
  | String c r =>
      if is_digit c then leading_int r (10 * acc + (nat_of_ascii c - 48))
      else acc
  | EmptyString => acc
  end.

(** [html_heading_re = re.compile(r'h[1-6]')], matched at the start of the
    tag name. *)
Definition is_heading (tag : string) : bool :=
  match tag with
  | String "h"%char (String c _) =>
      let n := nat_of_ascii c in Nat.leb 49 n && Nat.leb n 54
  | _ => false
  end.

(** [convert_heading_re = re.compile(r'convert_h(\d+)')] matched against
    ['convert_' + tag]: the level of the heading rule that [__getattr__]
    makes for the tag, if it makes one. *)
Definition heading_level (tag : string) : option nat :=
  match tag with
  | String "h"%char (String c r) =>
      if is_digit c then Some (leading_int (String c r) 0) else None
  | _ => None
  end.

Definition is_cell (tag : string) : bool :=
  String.eqb tag "td" || String.eqb tag "th".

Definition heading_style (options : gmap string pyvalue) : string :=
  match options !! "heading_style" with
  | Some (PyStr s) => lower s
  | _ => ""
  end.

Definition newline : string := String (ascii_of_nat 10) "".

(** [underline(text, pad_char)] *)
Definition underline (text : string) (pad_char : ascii) : string :=
  let text := rstrip text in
  if String.eqb text "" then ""
  else text +:+ newline +:+ repeat_char pad_char (String.length text)
         +:+ newline +:+ newline.

(** [convert_hn(n, el, text, convert_as_inline)] *)
Definition convert_hn (options : gmap string pyvalue) (n : nat)
    (text : string) (convert_as_inline : bool) : string :=
  if convert_as_inline then text
  else
    let style := heading_style options in
    let text := strip text in
    if String.eqb style UNDERLINED && Nat.leb n 2 then
      underline text (if Nat.eqb n 1 then "="%char else "-"%char)
    else
      let hashes := repeat_char "#" n in
      if String.eqb style ATX_CLOSED
      then hashes +:+ " " +:+ text +:+ " " +:+ hashes +:+ newline +:+ newline
      else hashes +:+ " " +:+ text +:+ newline +:+ newline.

Fixpoint pystr_in (tag : string) (items : list pyvalue) : bool :=
  match items with
  | PyStr s :: r => String.eqb s tag || pystr_in tag r
  | _ :: r => pystr_in tag r
  | [] => false
  end.

Definition items_of (v : option pyvalue) : list pyvalue :=
  match v with
  | Some (PyList l) | Some (PyTuple l) => l
  | _ => []
  end.

(** [should_convert_tag(tag)] *)
Definition should_convert_tag (options : gmap string pyvalue) (tag : string) : bool :=
  let tag := lower tag in
  if negb (is_none (options !! "strip"))
  then negb (pystr_in tag (items_of (options !! "strip")))
  else if negb (is_none (options !! "convert"))
  then pystr_in tag (items_of (options !! "convert"))
  else true.

(** ** The libraries behind the script *)

(** What the script imports and this development does not define: the two
    HTML parsers, lxml's serializer and tag table, the link rewriting of the
    cleaner, markdownify's text and element rules other than headings, and
    the browser session.  The general theorems quantify over all of it.
    The parser of bs4 and the rules of markdownify are functions here:
    markup on which [html.parser] gives up ([ParserRejectedMarkup]) is not
    covered. *)
Class Library : Type := {
  (** [BeautifulSoup(markup, 'html.parser')]: the children of the soup. *)
  BeautifulSoup : string → list node;
  (** [lxml.html.fromstring] *)
  fromstring : string → outcome node;
  (** [lxml.html.tostring(tree, pretty_print=True, encoding='unicode')] *)
  tostring : node → string;
  (** membership in [lxml.html.defs.tags] *)
  defs_tags : string → bool;
  (** what [rewrite_links(_remove_javascript_link)] makes of the value of
      attribute [key] on element [tag] *)
  remove_javascript_link : string → string → string → string;
  (** markdownify's [process_text], given the options, the names of the
      enclosing elements (innermost first), the siblings and the position
      of the text among them *)
  process_text : gmap string pyvalue → list string → list node → nat → string → string;
  (** markdownify's [convert_<tag>] for the tags that are not headings,
      given the options, the element's name and attributes, the names of
      the enclosing elements, the converted children and
      [convert_as_inline] *)
  convert_element :
    gmap string pyvalue → string → list (string * string) → list string →
    string → bool → string;
  (** Playwright: launch, [goto(url)], [content()], close *)
  page_content : string → outcome string
}.

(** ** Stage 1: the content locator *)

Section script.
Context `{Library}.

(** [main_selectors] *)
Definition main_selectors : list string :=
  ["main"; "article"; ".main"; "#main"; ".content"; "#content"].

(** The [for ... break] loop: [main_div] keeps the value of the last
    [select_one] made. *)
Fixpoint select_loop (soup : list node) (selectors : list string)
    (main_div : option node) : option node :=
  match selectors with
  | [] => main_div
  | selector :: rest =>
      let main_div := bs4.select_one soup selector in
      if truthy_tag main_div then main_div
      else select_loop soup rest main_div
  end.

Definition extract_main_content (html_content : string) : option string :=
  let soup := BeautifulSoup html_content in
  let main_div := select_loop soup main_selectors None in
  let main_div :=
    if negb (truthy_tag main_div) then bs4.find soup "body" else main_div in
  if truthy_tag main_div then option_map bs4.str main_div else None.

(** ** Stage 2: the sanitizer *)

(** The cleaner of the script: the defaults, with the five keyword
    arguments given; [inline_style] follows [style]. *)
Definition cleaner : Cleaner :=
  {| scripts := scripts Cleaner_defaults;
     javascript := javascript Cleaner_defaults;
     comments := comments Cleaner_defaults;
     style := true;
     inline_style := true;
     links := true;
     meta := meta Cleaner_defaults;
     page_structure := false;
     embedded := embedded Cleaner_defaults;
     frames := frames Cleaner_defaults;
     forms := forms Cleaner_defaults;
     annoying_tags := annoying_tags Cleaner_defaults;
     remove_unknown_tags := remove_unknown_tags Cleaner_defaults;
     safe_attrs_only := false;
     add_nofollow := true |}.

(** The attribute passes on one element: event handlers go, link values are
    rewritten, [style] attributes go.  (With [safe_attrs_only] the cleaner
    first keeps the safe attributes only; the script switches that off.) *)
Definition scrub_attrs (c : Cleaner) (tag : string)
    (attrs : list (string * string)) : list (string * string) :=
  let attrs :=
    if javascript c
    then List.filter (λ kv, negb (startswith "on" kv.1)) attrs
    else attrs in
  let attrs :=
    if javascript c
    then map (λ kv, (kv.1, remove_javascript_link tag kv.1 kv.2)) attrs
    else attrs in
  if inline_style c
  then List.filter (λ kv, negb (String.eqb kv.1 "style")) attrs
  else attrs.

(** [<image>] is renamed [<img>], then the attribute passes run. *)
Fixpoint scrub (c : Cleaner) (n : node) : node :=
  match n with
  | Elem tag attrs children =>
      let tag := if String.eqb tag "image" then "img" else tag in
      Elem tag (scrub_attrs c tag attrs) (map (scrub c) children)
  | _ => n
  end.

(** What [drop_tree] and [drop_tag] do with the text around the node that
    goes: the tail of the node, and the text of an unwrapped element, are
    appended to the text slot before them.  Here the runs of text that have
    become adjacent are made one. *)
Fixpoint join_text (l : list node) : list node :=
  match l with
  | [] => []
  | Text a :: r =>
      match join_text r with
      | Text b :: r' => Text (a +:+ b) :: r'
      | r' => Text a :: r'
      end
  | n :: r => n :: join_text r
  end.

(** Below the root: a [<param>] outside [<applet>]/[<object>] and every
    element of [kill_tags] go with their content ([drop_tree]); an element
    of [remove_tags] is replaced by its content ([drop_tag]); comments are
    killed.  [in_object] tells whether an enclosing [<applet>] or
    [<object>] exists. *)
Fixpoint prune (c : Cleaner) (in_object : bool) (n : node) : list node :=
  match n with
  | Text _ => [n]
  | Comment _ => if comments c then [] else [n]
  | Elem tag attrs children =>
      if embedded c && String.eqb tag "param" && negb in_object then []
      else if in_tags tag (kill_tags c) then []
      else
        let in_object :=
          in_object || String.eqb tag "applet" || String.eqb tag "object" in
        let children := join_text (flat_map (prune c in_object) children) in
        if in_tags tag (remove_tags c) then children
        else [Elem tag attrs children]
  end.

(** A child that is still in the kill or the remove list once the [<param>]
    elements outside [<applet>]/[<object>] are gone. *)
Definition queued (c : Cleaner) (in_object : bool) (n : node) : bool :=
  match n with
  | Text _ => false
  | Comment _ => comments c
  | Elem tag _ _ =>
      if embedded c && String.eqb tag "param" && negb in_object then false
      else in_tags tag (kill_tags c) || in_tags tag (remove_tags c)
  end.

(** The root cannot be dropped: a root to remove becomes a bare [<div>], a
    root to kill is cleared and becomes an empty one.  A [<param>] root
    fails [assert parent is not None] in [drop_tree]; so does, once a killed
    root is cleared, each child of it that is still queued for [drop_tree]
    or [drop_tag], having lost its parent. *)
Definition prune_root (c : Cleaner) (doc : node) : outcome node :=
  match doc with
  | Elem tag attrs children =>
      if embedded c && String.eqb tag "param" then
        Raises (Exception "AssertionError" "")
      else if in_tags tag (kill_tags c) then
        let in_object := String.eqb tag "applet" || String.eqb tag "object" in
        if existsb (queued c in_object) children then
          Raises (Exception "AssertionError" "")
        else
          Returns (Elem (if String.eqb tag "html" then tag else "div") [] [])
      else
        let in_object := String.eqb tag "applet" || String.eqb tag "object" in
        let children := join_text (flat_map (prune c in_object) children) in
        if in_tags tag (remove_tags c) then Returns (Elem "div" [] children)
        else Returns (Elem tag attrs children)
  | _ => Returns doc
  end.

(** [remove_unknown_tags]: an element whose tag is not in [defs.tags] is
    replaced by its content. *)
Fixpoint drop_unknown (n : node) : list node :=
  match n with
  | Elem tag attrs children =>
      let children := join_text (flat_map drop_unknown children) in
      if defs_tags tag then [Elem tag attrs children] else children
  | _ => [n]
  end.

Definition drop_unknown_root (doc : node) : node :=
  match doc with
  | Elem tag attrs children =>
      let children := join_text (flat_map drop_unknown children) in
      if defs_tags tag then Elem tag attrs children
      else Elem "div" [] children
  | _ => doc
  end.

(** [Cleaner.__call__], for a cleaner with [safe_attrs_only] off and
    [style] and [links] on, as the script's is. *)
Definition Cleaner_call (c : Cleaner) (doc : node) : outcome node :=
  doc ← prune_root c (scrub c doc);
  let doc := if remove_unknown_tags c then drop_unknown_root doc else doc in
  let doc := if add_nofollow c then add_nofollow_pass doc else doc in
  mret doc.

(** [Cleaner.clean_html(tree)] on a parsed tree: the cleaned copy. *)
Definition Cleaner_clean_html (c : Cleaner) (tree : node) : outcome node :=
  Cleaner_call c tree.

Definition clean_html (html_string : string) : outcome string :=
  if negb (truthy_str (Some html_string)) then Returns ""
  else
    tree ← fromstring html_string;
    cleaned_tree ← Cleaner_clean_html cleaner tree;
    mret (tostring cleaned_tree).

(** ** Stage 3: the transformer *)

(** [process_tag] below the document: text goes through [process_text],
    comments are skipped, an element's children are converted first and
    the rule for its tag is applied to the result.  Inside a heading or a
    table cell the children are converted inline. *)
Fixpoint process_node (options : gmap string pyvalue) (convert_as_inline : bool)
    (parents : list string) (siblings : list node) (i : nat) (n : node) : string :=
  match n with
  | Text s => process_text options parents siblings i s
  | Comment _ => ""
  | Elem tag attrs children =>
      let convert_children_as_inline :=
        convert_as_inline || is_heading tag || is_cell tag in
      let text :=
        (fix go (i : nat) (l : list node) : string :=
           match l with
           | [] => ""
           | el :: r =>
               process_node options convert_children_as_inline
                 (tag :: parents) children i el +:+ go (S i) r
           end) 0 children in
      match heading_level tag with
      | Some level =>
          if should_convert_tag options tag
          then convert_hn options level text convert_as_inline
          else text
      | None =>
          convert_element options tag attrs parents text convert_as_inline
      end
  end.

Fixpoint process_children (options : gmap string pyvalue) (parents : list string)
    (siblings : list node) (i : nat) (l : list node) : string :=
  match l with
  | [] => ""
  | el :: r =>
      process_node options false parents siblings i el
        +:+ process_children options parents siblings (S i) r
  end.

(** [MarkdownConverter.convert(html)]: parse, then [process_tag] on the
    soup with [children_only]. *)
Definition MarkdownConverter_convert (options : gmap string pyvalue)
    (html : string) : string :=
  let soup := BeautifulSoup html in
  process_children options ["[document]"] soup 0 soup.

(** The keyword arguments the script passes to [MarkdownConverter]. *)
Definition md_converter_kwargs : list (string * pyvalue) :=
  [("escape_underscores", PyBool false);
   ("substitutions",
     PyList [PyTuple [PyStr "h1"; PyStr "##"];
             PyTuple [PyStr "h2"; PyStr "###"];
             PyTuple [PyStr "h3"; PyStr "####"];
             PyTuple [PyStr "h4"; PyStr "#####"];
             PyTuple [PyStr "h5"; PyStr "######"];
             PyTuple [PyStr "h6"; PyStr "#######"]])].

Definition convert_to_markdown_with_details (html_string : string) : outcome string :=
  if negb (truthy_str (Some html_string)) then Returns ""
  else
    md_converter ← MarkdownConverter md_converter_kwargs;
    let markdown_output := MarkdownConverter_convert md_converter html_string in
    mret markdown_output.

(** ** The orchestrator *)

Definition get_page_source_with_js (url : string) : run (option string) :=
  match page_content url with
  | Returns html_content => mret (Some html_content)
  | Raises e =>
      print ("Error with Playwright: " +:+ exn_message e);;
      mret None
  end.

(** [if not x: return falsy] followed by the rest of the function, which
    uses [x] as a string. *)
Definition unless_falsy {A : Type} (x : option string) (falsy : A)
    (rest : string → A) : A :=
  match x with
  | Some s => if truthy_str x then rest s else falsy
  | None => falsy
  end.

Definition scrape_robustly (url : string) : run string :=
  print "Fetching page with Playwright...";;
  html_with_js ← get_page_source_with_js url;
  unless_falsy html_with_js (mret "Failed to fetch content.") (λ html_with_js,
  print "Identifying main content area...";;
  let main_content_html := extract_main_content html_with_js in
  unless_falsy main_content_html (mret "Could not identify main content.")
    (λ main_content_html,
  print "Cleaning HTML...";;
  cleaned_html ← call (clean_html main_content_html);
  print "Converting to Markdown...";;
  markdown_content ← call (convert_to_markdown_with_details cleaned_html);
  mret markdown_content)).

End script.

(** ** A sample implementation of the libraries

    An executable [Library] for concrete runs.  Its parser covers character
    data, start tags with attributes, end tags, comments and the raw
    content of [<script>] and [<style>]; character references,
    declarations and processing instructions are left as they come.  The
    tree is built the way bs4 builds it on [html.parser]'s events: a start
    tag opens an element (void elements close at once), an end tag closes
    the innermost open element of that name and all inside it, or is
    ignored when there is none, and the end of input closes what is open. *)

Module sample.

Inductive token : Type :=
| TData (s : string)
| TStart (tag : string) (attrs : list (string * string))
| TEnd (tag : string)
| TComment (s : string).

(** The longest prefix whose characters satisfy [p], and the rest. *)
Fixpoint span (p : ascii → bool) (s : string) : string * string :=
  match s with
  | String c r =>
      if p c then let '(a, b) := span p r in (String c a, b) else ("", s)
  | EmptyString => ("", "")
  end.

Fixpoint string_drop (n : nat) (s : string) : string :=
  match n, s with
  | S n, String _ r => string_drop n r
  | _, _ => s
  end.

(** [s.partition(needle)] when [needle] occurs: what is before it and what
    is after it. *)
Fixpoint split_at (needle s : string) : option (string * string) :=
  if String.prefix needle s
  then Some ("", string_drop (String.length needle) s)
  else match s with
       | String c r =>
           match split_at needle r with
           | Some (a, b) => Some (String c a, b)
           | None => None
           end
       | EmptyString => None
       end.

Definition is_letter (c : ascii) : bool :=
  let n := nat_of_ascii c in
  (Nat.leb 65 n && Nat.leb n 90) || (Nat.leb 97 n && Nat.leb n 122).

Definition is_char (c d : ascii) : bool := Ascii.eqb c d.

Definition name_char (c : ascii) : bool :=
  negb (is_space c || is_char c "/" || is_char c ">").

Definition attr_name_char (c : ascii) : bool :=
  negb (is_space c || is_char c "/" || is_char c ">" || is_char c "=").

Definition unquoted_char (c : ascii) : bool :=
  negb (is_space c || is_char c ">").

(** The value after [=]: quoted with either quote, or bare. *)
Definition attr_value (s : string) : string * string :=
  match s with
  | String q r =>
      if is_char q (ascii_of_nat 34) || is_char q (ascii_of_nat 39) then
        match split_at (String q "") r with
        | Some (v, rest) => (v, rest)
        | None => (r, "")
        end
      else span unquoted_char s
  | EmptyString => ("", "")
  end.

(** The attributes of a start tag and what follows its [>]; [None] when the
    tag is not closed.  A repeated attribute keeps its place and takes the
    last value. *)
Fixpoint parse_attrs (fuel : nat) (s : string) (acc : list (string * string))
    : option (list (string * string) * string) :=
  match fuel with
  | O => None
  | S fuel =>
      let s := (span (λ c, is_space c || is_char c "/") s).2 in
      match s with
      | EmptyString => None
      | String c r =>
          if is_char c ">" then Some (acc, r)
          else
            let '(name, rest) := span attr_name_char s in
            if String.eqb name "" then parse_attrs fuel r acc
            else
              let rest' := (span is_space rest).2 in
              match rest' with
              | String "="%char after =>
                  let '(v, rest'') := attr_value (span is_space after).2 in
                  parse_attrs fuel rest'' (set_attr (lower name) v acc)
              | _ => parse_attrs fuel rest (set_attr (lower name) "" acc)
              end
      end
  end.

(** The events of [html.parser]. [cdata] names the open [<script>] or
    [<style>] whose content is being read. *)
Fixpoint tokenize (fuel : nat) (cdata : option string) (s : string) : list token :=
  match fuel with
  | O => []
  | S fuel =>
      match s with
      | EmptyString => []
      | String c r =>
          match cdata with
          | Some tag =>
              match split_at ("</" +:+ tag) s with
              | Some (data, _) =>
                  let rest := string_drop (String.length data) s in
                  if String.eqb data "" then tokenize fuel None rest
                  else TData data :: tokenize fuel None rest
              | None => [TData s]
              end
          | None =>
              if is_char c "<" then
                match r with
                | String d r' =>
                    if is_letter d then
                      let '(name, after) := span name_char r in
                      let tag := lower name in
                      match parse_attrs fuel after [] with
                      | Some (attrs, rest) =>
                          TStart tag attrs ::
                            tokenize fuel
                              (if bs4.cdata_containing tag then Some tag else None)
                              rest
                      | None => [TData s]
                      end
                    else if is_char d "/" then
                      match split_at ">" r' with
                      | Some (name, rest) =>
                          TEnd (lower (strip name)) :: tokenize fuel None rest
                      | None => [TData s]
                      end
                    else if String.prefix "!--" r then
                      match split_at "-->" (string_drop 3 r) with
                      | Some (text, rest) => TComment text :: tokenize fuel None rest
                      | None => [TData s]
                      end
                    else TData "<" :: tokenize fuel None r
                | EmptyString => [TData "<"]
                end
              else
                let '(data, rest) := span (λ c, negb (is_char c "<")) s in
                TData data :: tokenize fuel None rest
          end
      end
  end.

(** An open element: its name, attributes and the children read so far,
    last first. *)
Definition frame : Type := (string * list (string * string) * list node)%type.

(** The open elements, innermost first, and the top-level nodes read so
    far, last first. *)
Definition builder : Type := (list frame * list node)%type.

Definition object_was_parsed (n : node) (b : builder) : builder :=
  match b with
  | ((tag, attrs, kids) :: open, top) => ((tag, attrs, n :: kids) :: open, top)
  | ([], top) => ([], n :: top)
  end.

(** Consecutive runs of data make one string. *)
Definition handle_data (s : string) (b : builder) : builder :=
  match b with
  | ((tag, attrs, Text t :: kids) :: open, top) =>
      ((tag, attrs, Text (t +:+ s) :: kids) :: open, top)
  | ([], Text t :: top) => ([], Text (t +:+ s) :: top)
  | _ => object_was_parsed (Text s) b
  end.

Definition popTag (b : builder) : builder :=
  match b with
  | ((tag, attrs, kids) :: open, top) =>
      object_was_parsed (Elem tag attrs (rev kids)) (open, top)
  | ([], _) => b
  end.

Fixpoint popToTag (fuel : nat) (name : string) (b : builder) : builder :=
  match fuel, b with
  | S fuel, ((tag, _, _) :: _, _) =>
      if String.eqb tag name then popTag b else popToTag fuel name (popTag b)
  | _, _ => b
  end.

Definition is_open (name : string) (b : builder) : bool :=
  existsb (λ f : frame, String.eqb f.1.1 name) b.1.

Definition handle_token (b : builder) (t : token) : builder :=
  match t with
  | TData s => handle_data s b
  | TComment s => object_was_parsed (Comment s) b
  | TStart tag attrs =>
      if existsb (String.eqb tag) bs4.void_elements
      then object_was_parsed (Elem tag attrs []) b
      else ((tag, attrs, []) :: b.1, b.2)
  | TEnd tag =>
      if is_open tag b then popToTag (length b.1) tag b else b
  end.

Definition build (tokens : list token) : list node :=
  let b := foldl handle_token ([], []) tokens in
  rev (Nat.iter (length b.1) popTag b).2.

Definition parse (s : string) : list node :=
  build (tokenize (2 * String.length s + 2) None s).

(** *** lxml *)

(** [lxml.html.defs.block_tags] *)
Definition block_tags : list string :=
  ["address"; "blockquote"; "center"; "del"; "div"; "h1"; "h2"; "h3"; "h4";
   "h5"; "h6"; "hr"; "ins"; "isindex"; "noscript"; "p"; "pre";
   "dir"; "dl"; "dt"; "dd"; "li"; "menu"; "ol"; "ul";
   "table"; "caption"; "colgroup"; "col"; "thead"; "tfoot"; "tbody"; "tr";
   "td"; "th"; "fieldset"; "form"; "legend"; "optgroup"; "option"].

Definition is_block (n : node) : bool :=
  match n with
  | Elem tag _ _ => existsb (String.eqb tag) block_tags
  | _ => false
  end.

Definition blank_text (n : node) : bool :=
  match n with Text s => is_blank s | _ => false end.

Fixpoint span_nodes (p : node → bool) (l : list node) : list node * list node :=
  match l with
  | n :: r =>
      if p n then let '(a, b) := span_nodes p r in (n :: a, b) else ([], l)
  | [] => ([], [])
  end.

(** The children of the [<body>] that the HTML parser of libxml2 makes of a
    fragment: those of an explicit [<body>], or the fragment itself, with
    leading bare text and what follows it up to the next block element
    put in a [<p>]. *)
Definition body_of (nodes : list node) : list node :=
  match List.filter (λ n, negb (blank_text n)) nodes with
  | [Elem "body" _ children] => children
  | Text _ :: _ =>
      let '(inline, rest) := span_nodes (λ n, negb (is_block n)) nodes in
      Elem "p" [] inline :: rest
  | _ => nodes
  end.

(** [lxml.html.fromstring], on fragments made of one element, of a
    [<body>], or of bare text; a blank document is the parser's error. *)
Definition html_fromstring (s : string) : outcome node :=
  if is_blank s then Raises (Exception "ParserError" "Document is empty")
  else
    let nodes := parse s in
    match List.filter is_element nodes with
    | Elem "html" attrs children :: _ => Returns (Elem "html" attrs children)
    | _ =>
        let body := body_of nodes in
        match List.filter (λ n, negb (is_text n)) body with
        | [el] =>
            if forallb (λ n, negb (is_text n) || blank_text n) body
            then Returns el
            else Returns (Elem (if existsb is_block (descendants body)
                                then "div" else "span") [] body)
        | _ =>
            Returns (Elem (if existsb is_block (descendants body)
                           then "div" else "span") [] body)
        end
    end.

Definition escape_attr (s : string) : string :=
  bs4.replace_dquote (bs4.substitute_xml s).

(** The HTML serialization: void elements have no end tag. *)
Fixpoint serialize (n : node) : string :=
  match n with
  | Text s => bs4.substitute_xml s
  | Comment s => "<!--" +:+ s +:+ "-->"
  | Elem tag attrs children =>
      let open :=
        "<" +:+ tag +:+
        concat_strings
          (map (λ kv : string * string,
                  " " +:+ kv.1 +:+ "=" +:+ bs4.dquote +:+ escape_attr kv.2
                    +:+ bs4.dquote) attrs) +:+ ">" in
      if existsb (String.eqb tag) bs4.void_elements then open
      else open +:+ concat_strings (map serialize children)
             +:+ "</" +:+ tag +:+ ">"
  end.

Definition html_tostring (n : node) : string := serialize n +:+ newline.

(** [lxml.html.defs.tags] *)
Definition tags : list string :=
  ["html"; "head"; "body"; "frameset";
   "base"; "isindex"; "link"; "meta"; "script"; "style"; "title";
   "address"; "blockquote"; "center"; "del"; "div"; "h1"; "h2"; "h3"; "h4";
   "h5"; "h6"; "hr"; "ins"; "noscript"; "p"; "pre";
   "dir"; "dl"; "dt"; "dd"; "li"; "menu"; "ol"; "ul";
   "table"; "caption"; "colgroup"; "col"; "thead"; "tfoot"; "tbody"; "tr";
   "td"; "th";
   "form"; "button"; "fieldset"; "legend"; "input"; "label"; "select";
   "optgroup"; "option"; "textarea";
   "a"; "applet"; "basefont"; "bdo"; "br"; "embed"; "font"; "iframe"; "img";
   "map"; "area"; "object"; "param"; "q"; "span"; "sub"; "sup";
   "abbr"; "acronym"; "cite"; "code"; "dfn"; "em"; "kbd"; "samp"; "strong";
   "var";
   "b"; "big"; "i"; "s"; "small"; "strike"; "tt"; "u";
   "blink"; "marquee";
   "article"; "aside"; "audio"; "canvas"; "command"; "datalist"; "details";
   "figcaption"; "figure"; "footer"; "header"; "hgroup"; "keygen"; "mark";
   "math"; "meter"; "nav"; "output"; "progress"; "rp"; "rt"; "ruby";
   "section"; "source"; "summary"; "svg"; "time"; "track"; "video"; "wbr"].

(** [lxml.html.defs.link_attrs] *)
Definition link_attrs : list string :=
  ["action"; "archive"; "background"; "cite"; "classid"; "codebase"; "data";
   "href"; "longdesc"; "profile"; "src"; "usemap"; "dynsrc"; "lowsrc";
   "formaction"].

Definition script_schemes : list string :=
  ["javascript:"; "jscript:"; "livescript:"; "vbscript:"; "data:"; "about:";
   "mocha:"].

Fixpoint remove_spaces (s : string) : string :=
  match s with
  | EmptyString => ""
  | String c r => if is_space c then remove_spaces r else String c (remove_spaces r)
  end.

(** A link whose scheme can run script is emptied, except an image in a
    [data:] URL; any other link is stripped of surrounding blanks. *)
Definition javascript_link (tag key value : string) : string :=
  if existsb (String.eqb key) link_attrs then
    let link := lower (remove_spaces value) in
    if existsb (λ scheme, String.prefix scheme link) script_schemes
       && negb (String.prefix "data:image/" link)
    then "" else strip value
  else value.

(** *** markdownify *)

Fixpoint replace_char (c : ascii) (by_ : string) (s : string) : string :=
  match s with
  | EmptyString => ""
  | String d r =>
      (if Ascii.eqb c d then by_ else String d "") +:+ replace_char c by_ r
  end.

(** [re.sub(r'[\t ]+', ' ', text)] *)
Fixpoint collapse_blanks (s : string) (after_blank : bool) : string :=
  match s with
  | EmptyString => ""
  | String c r =>
      if is_char c " " || is_char c (ascii_of_nat 9)
      then (if after_blank then "" else " ") +:+ collapse_blanks r true
      else String c (collapse_blanks r false)
  end.

Definition option_on (options : gmap string pyvalue) (key : string) : bool :=
  match options !! key with
  | Some (PyBool b) => b
  | _ => false
  end.

Definition backslash : string := String (ascii_of_nat 92) "".

(** [escape(text)] *)
Definition escape (options : gmap string pyvalue) (text : string) : string :=
  let text :=
    if option_on options "escape_asterisks"
    then replace_char "*" (backslash +:+ "*") text else text in
  if option_on options "escape_underscores"
  then replace_char "_" (backslash +:+ "_") text else text.

Definition inside (tags : list string) (parents : list string) : bool :=
  existsb (λ p, existsb (String.eqb p) tags) parents.

Definition text_rule (options : gmap string pyvalue) (parents : list string)
    (siblings : list node) (i : nat) (text : string) : string :=
  let text := if inside ["pre"] parents then text else collapse_blanks text false in
  let text :=
    if inside ["pre"; "code"; "kbd"; "samp"] parents then text
    else escape options text in
  match parents, siblings !! S i with
  | "li" :: _, None | "li" :: _, Some (Elem "ul" _ _)
  | "li" :: _, Some (Elem "ol" _ _) => rstrip text
  | _, _ => text
  end.

(** [chomp(text)] *)
Definition chomp (text : string) : string * string * string :=
  let prefix := if String.prefix " " text then " " else "" in
  let suffix := if String.prefix " " (String.rev text) then " " else "" in
  (prefix, suffix, strip text).

Definition inline_markup (markup : string) (parents : list string)
    (text : string) : string :=
  if inside ["pre"; "code"; "kbd"; "samp"] parents then text
  else
    let '(prefix, suffix, text) := chomp text in
    if String.eqb text "" then ""
    else prefix +:+ markup +:+ text +:+ markup +:+ suffix.

(** The element rules for paragraphs, emphasis and anchors with a target
    and no title; the other tags of the sample pass their content on. *)
Definition element_rule (options : gmap string pyvalue) (tag : string)
    (attrs : list (string * string)) (parents : list string) (text : string)
    (convert_as_inline : bool) : string :=
  if String.eqb tag "p" then
    if convert_as_inline then text
    else if String.eqb text "" then "" else text +:+ newline +:+ newline
  else if String.eqb tag "b" || String.eqb tag "strong" then
    inline_markup "**" parents text
  else if String.eqb tag "em" || String.eqb tag "i" then
    inline_markup "*" parents text
  else if String.eqb tag "a" then
    let '(prefix, suffix, text) := chomp text in
    if String.eqb text "" then ""
    else
      match bs4.get_attr "href" attrs with
      | Some href =>
          if String.eqb href "" then text
          else if option_on options "autolinks" && String.eqb text href
          then "<" +:+ href +:+ ">"
          else prefix +:+ "[" +:+ text +:+ "](" +:+ href +:+ ")" +:+ suffix
      | None => text
      end
  else text.

(** *** The browser *)

(** The pages of a small web; any other address fails to load. *)
Definition load_page (pages : list (string * string)) (url : string)
    : outcome string :=
  match bs4.get_attr url pages with
  | Some html => Returns html
  | None => Raises (Exception "Error" "net::ERR_NAME_NOT_RESOLVED")
  end.

Definition library (pages : list (string * string)) : Library :=
  {| BeautifulSoup := parse;
     fromstring := html_fromstring;
     tostring := html_tostring;
     defs_tags := λ tag, existsb (String.eqb tag) tags;
     remove_javascript_link := javascript_link;
     process_text := text_rule;
     convert_element := element_rule;
     page_content := load_page pages |}.

End sample.

(** ** What the claims say, in the terms of the model *)

(** The elements of [soup] that [sel] selects, in document order. *)
Definition matching (soup : list node) (sel : string) : list node :=
  List.filter (bs4.matches (bs4.parse_selector sel)) (descendants soup).

(** The locator as the specification words it: the first selector, in
    priority order, that selects anything gives its first element in
    document order; when none does, the first [<body>]; else nothing. *)
Definition locate_spec (soup : list node) : option node :=
  match List.find (λ sel, negb (forallb (λ _, false) (matching soup sel)))
          ["main"; "article"; ".main"; "#main"; ".content"; "#content"] with
  | Some sel => head (matching soup sel)
  | None => head (matching soup "body")
  end.

(** The call ended by handing a value back to its caller. *)
Definition surfaces_as_value {A : Type} (r : outcome A) : Prop :=
  ∃ v, r = Returns v.

(** What the orchestrator returns when the page could not be fetched, and
    when no content region was found. *)
Definition FetchFailed : string := "Failed to fetch content.".
Definition NoContentFound : string := "Could not identify main content.".

(** Some element of the tree, the root included, has a tag that [p]
    accepts. *)
Fixpoint has_tag (p : string → bool) (n : node) : bool :=
  match n with
  | Elem tag _ children => p tag || existsb (has_tag p) children
  | _ => false
  end.



(** The character data outside every element that the cleaner drops with
    its content: the elements of [kill_tags] and a [<param>] outside
    [<applet>]/[<object>]. *)
Fixpoint surviving_text (c : Cleaner) (in_object : bool) (n : node) : list string :=
  match n with
  | Text s => [s]
  | Comment _ => []
  | Elem tag _ children =>
      if embedded c && String.eqb tag "param" && negb in_object then []
      else if in_tags tag (kill_tags c) then []
      else
        flat_map
          (surviving_text c
             (in_object || String.eqb tag "applet" || String.eqb tag "object"))
          children
  end.


(** [rel] has [nofollow] among its space-separated words. *)
Definition has_nofollow (rel : string) : bool :=
  contains " nofollow " (" " +:+ rel +:+ " ").

Definition rel_has_nofollow (attrs : list (string * string)) : bool :=
  match bs4.get_attr "rel" attrs with
  | Some rel => has_nofollow rel
  | None => false
  end.

(** Every anchor of the tree that has an [href] is marked: the claim about
    hyperlinks as it is stated. *)
Fixpoint hyperlinks_marked (n : node) : bool :=
  match n with
  | Elem tag attrs children =>
      (if String.eqb tag "a" then
         match bs4.get_attr "href" attrs with
         | Some _ => rel_has_nofollow attrs
         | None => true
         end
       else true)
      && forallb hyperlinks_marked children
  | _ => true
  end.

(** Every anchor of the tree whose [href] leads out of the page is
    marked. *)
Fixpoint external_links_marked (n : node) : bool :=
  match n with
  | Elem tag attrs children =>
      (if String.eqb tag "a" then
         match bs4.get_attr "href" attrs with
         | Some href => negb (is_external_href href) || rel_has_nofollow attrs
         | None => true
         end
       else true)
      && forallb external_links_marked children
  | _ => true
  end.

(** [p] accepts only tags that the script's cleaner kills. *)
Definition only_killed (p : string → bool) : Prop :=
  ∀ tag, p tag = true → in_tags tag (kill_tags cleaner) = true.

(** The trees on which the cleaner fails its assertion: a [<param>] root,
    and a root of [kill_tags] one of whose children is a comment or an
    element of [kill_tags] or [remove_tags]. *)
Definition fails_assertion (c : Cleaner) (doc : node) : bool :=
  match doc with
  | Elem tag _ children =>
      (embedded c && String.eqb tag "param")
      || (in_tags tag (kill_tags c)
          && existsb
               (queued c (String.eqb tag "applet" || String.eqb tag "object"))
               children)
  | _ => false
  end.

(** The same cleaner with [add_nofollow] off. *)
Definition without_nofollow (c : Cleaner) : Cleaner :=
  {| scripts := scripts c; javascript := javascript c; comments := comments c;
     style := style c; inline_style := inline_style c; links := links c;
     meta := meta c; page_structure := page_structure c;
     embedded := embedded c; frames := frames c; forms := forms c;
     annoying_tags := annoying_tags c;
     remove_unknown_tags := remove_unknown_tags c;
     safe_attrs_only := safe_attrs_only c; add_nofollow := false |}.

(** An anchor whose [href] leads out of the page. *)
Definition is_external_anchor (tag : string) (attrs : list (string * string))
    : bool :=
  String.eqb tag "a"
  && match bs4.get_attr "href" attrs with
     | Some href => is_external_href href
     | None => false
     end.

(** The attributes other than [rel], in order. *)
Definition other_attrs (attrs : list (string * string)) : list (string * string) :=
  List.filter (λ kv, negb (String.eqb kv.1 "rel")) attrs.

(** The attributes [after] are the attributes [before], marked if they are
    those of an anchor that leads out of the page and left as they are if
    not: such an anchor has [nofollow] in its [rel] and its other
    attributes unchanged; every other element has its attributes
    unchanged. *)
Definition marked_from (tag : string) (before after : list (string * string))
    : bool :=
  if is_external_anchor tag before
  then rel_has_nofollow after && bool_decide (other_attrs after = other_attrs before)
  else bool_decide (after = before).

(** [after] is [before] with the anchors that lead out of the page marked,
    and nothing else changed. *)
Fixpoint only_external_marked (before after : node) : bool :=
  match before, after with
  | Text s, Text s' => String.eqb s s'
  | Comment s, Comment s' => String.eqb s s'
  | Elem tag attrs children, Elem tag' attrs' children' =>
      String.eqb tag tag' && marked_from tag attrs attrs'
      && (fix go (l l' : list node) : bool :=
            match l, l' with
            | [], [] => true
            | k :: r, k' :: r' => only_external_marked k k' && go r r'
            | _, _ => false
            end) children children'
  | _, _ => false
  end.



(** The heading mapping that the script passes as [substitutions]. *)
Definition heading_mapping : list (string * string) :=
  [("h1", "##"); ("h2", "###"); ("h3", "####"); ("h4", "#####");
   ("h5", "######"); ("h6", "#######")].

(** The output begins with the given run of [#] and a space. *)
Definition begins_with_run (hashes output : string) : bool :=
  String.prefix (hashes +:+ " ") output.

(** ** The script's entry point *)

Section entry.
Context `{Library}.

(** [url] *)
Definition url : string :=
  "https://en.wikipedia.org/wiki/Python_(programming_language)".

Definition output_file : string := "robust_scraped_content.md".

(** The module-level statements after the functions.  [files] gives the
    text of each file by name; opening the output file for writing
    replaces its text.  The result is the files afterwards and the run:
    the lines printed and how the script ended. *)
Definition script_main (files : gmap string string)
    : gmap string string * run unit :=
  match scrape_robustly url with
  | (out, Returns scraped_data) =>
      if truthy_str (Some scraped_data) then
        (<[output_file := scraped_data]> files,
         (out ++ [newline +:+ "Content saved to robust_scraped_content.md"],
          Returns tt))
      else (files, (out ++ ["No content to save."], Returns tt))
  | (out, Raises e) => (files, (out, Raises e))
  end.

End entry.

(** ** More predicates on trees *)

(** Some element of the tree satisfies [on_element], or, when
    [on_comment] is set, some node of the tree is a comment. *)
Fixpoint any_node (on_element : string → list (string * string) → bool)
    (on_comment : bool) (n : node) : bool :=
  match n with
  | Text _ => false
  | Comment _ => on_comment
  | Elem tag attrs children =>
      on_element tag attrs || existsb (any_node on_element on_comment) children
  end.

(** Some node of the tree is a comment. *)
Definition has_comment (n : node) : bool :=
  any_node (λ _ _, false) true n.

(** Some element of the tree has an attribute whose name [p] accepts. *)
Definition has_attr (p : string → bool) (n : node) : bool :=
  any_node (λ _ attrs, existsb (λ kv : string * string, p kv.1) attrs) false n.

(** An event handler or an inline style. *)
Definition is_handler_or_style (key : string) : bool :=
  startswith "on" key || String.eqb key "style".

(** ** Trees that a cleaning leaves alone *)

(** No two adjacent nodes of the list are text. *)
Fixpoint text_joined (l : list node) : bool :=
  match l with
  | [] => true
  | n :: r =>
      negb (is_text n && match r with k :: _ => is_text k | [] => false end)
      && text_joined r
  end.

(** No element of the tree has two adjacent children that are text. *)
Fixpoint joined (n : node) : bool :=
  match n with
  | Elem _ _ children => text_joined children && forallb joined children
  | _ => true
  end.

Section cleaned.
Context `{Library}.

(** An attribute that the attribute passes keep as it is: neither an event
    handler nor a style, with a value that the link rewriting returns
    unchanged. *)
Definition stable_attr (tag : string) (kv : string * string) : bool :=
  negb (is_handler_or_style kv.1)
  && String.eqb (remove_javascript_link tag kv.1 kv.2) kv.2.

(** An element that some pass of the script's cleaner would rename, drop,
    unwrap or rewrite. *)
Definition unclean_element (tag : string) (attrs : list (string * string)) : bool :=
  String.eqb tag "image"
  || (in_tags tag (kill_tags cleaner) || in_tags tag (remove_tags cleaner))
  || negb (defs_tags tag)
  || negb (forallb (stable_attr tag) attrs).

(** A tree without comments and without such elements. *)
Definition is_clean (n : node) : bool :=
  negb (any_node unclean_element true n).

End cleaned.

(** * Theorems *)

(** ** Trees *)

Section node_induction.
Variable P : node → Prop.
Hypothesis HText : ∀ s, P (Text s).
Hypothesis HComment : ∀ s, P (Comment s).
Hypothesis HElem : ∀ tag attrs children,
  Forall P children → P (Elem tag attrs children).

Lemma node_ind' (n : node) : P n.
Proof.
  revert n. fix IH 1. intros [s | s | tag attrs children].
  - apply HText.
  - apply HComment.
  - apply HElem. induction children as [| c r IHr]; constructor.
    + apply IH.
    + exact IHr.
Qed.
End node_induction.

Lemma head_app {A : Type} (l k : list A) :
  head (l ++ k) = match head l with Some x => Some x | None => head k end.
Proof. destruct l; reflexivity. Qed.

(** ** The locator *)

Lemma search_node_spec (p : node → bool) (n : node) :
  bs4.search_node p n = head (List.filter p (descendants_of n)).
Proof.
  induction n as [s | s | tag attrs children IH] using node_ind';
    simpl; destruct (p _) eqn:Hp; try reflexivity.
  clear Hp. induction IH as [| c r Hc _ IHr]; simpl; [reflexivity |].
  rewrite List.filter_app, head_app, <- Hc.
  destruct (bs4.search_node p c); [reflexivity | exact IHr].
Qed.

Lemma search_spec (p : node → bool) (forest : list node) :
  bs4.search p forest = head (List.filter p (descendants forest)).
Proof.
  induction forest as [| c r IH]; simpl; [reflexivity |].
  unfold descendants in *. simpl.
  rewrite List.filter_app, head_app, <- search_node_spec.
  destruct (bs4.search_node p c); [reflexivity | exact IH].
Qed.

Lemma select_one_spec (soup : list node) (sel : string) :
  bs4.select_one soup sel = head (matching soup sel).
Proof. apply search_spec. Qed.

Lemma find_body_spec (soup : list node) :
  bs4.find soup "body" = head (matching soup "body").
Proof. apply search_spec. Qed.

Lemma truthy_tag_head (l : list node) :
  truthy_tag (head l) = negb (forallb (λ _, false) l).
Proof. destruct l; reflexivity. Qed.

(** The loop over a list of selectors finds what [List.find] finds. *)
Lemma select_loop_spec (soup : list node) (selectors : list string)
    (main_div : option node) :
  select_loop soup selectors main_div =
  match List.find (λ sel, negb (forallb (λ _, false) (matching soup sel)))
          selectors with
  | Some sel => head (matching soup sel)
  | None =>
      match selectors with
      | [] => main_div
      | _ => None
      end
  end.
Proof.
  revert main_div. induction selectors as [| sel rest IH]; intros main_div;
    simpl; [reflexivity |].
  rewrite select_one_spec, truthy_tag_head.
  destruct (matching soup sel) as [| e l] eqn:Hm; simpl;
    [| rewrite Hm; reflexivity].
  rewrite IH. destruct (List.find _ rest); [reflexivity |].
  destruct rest; reflexivity.
Qed.

Lemma extract_main_content_spec `{Library} (html_content : string) :
  extract_main_content html_content =
  bs4.str <$> locate_spec (BeautifulSoup html_content).
Proof.
  unfold extract_main_content, locate_spec.
  rewrite select_loop_spec. fold main_selectors.
  destruct (List.find _ main_selectors) as [sel |] eqn:Hfind.
  - apply List.find_some in Hfind as [_ Hsel].
    rewrite <- truthy_tag_head in Hsel. rewrite Hsel. simpl. rewrite Hsel.
    destruct (head (matching _ sel)); [reflexivity | discriminate].
  - simpl. rewrite find_body_spec.
    destruct (head (matching _ "body")); reflexivity.
Qed.

(** C4. The locator tries [main], [article], [.main], [#main], [.content],
    [#content] in that order and returns the first element, in document
    order, of the first selector that selects anything; when no selector
    selects anything it returns the first [<body>] element, and when there
    is none either the result is [None]. *)
Theorem extract_main_content_priority `{Library} :
  main_selectors = ["main"; "article"; ".main"; "#main"; ".content"; "#content"]
  ∧ ∀ html_content : string,
      extract_main_content html_content =
      bs4.str <$> locate_spec (BeautifulSoup html_content).
Proof.
  split; [reflexivity | apply extract_main_content_spec].
Qed.

Lemma head_filter_true {A : Type} (p : A → bool) (l : list A) (x : A) :
  head (List.filter p l) = Some x → p x = true.
Proof.
  induction l as [| a l IH]; simpl; [discriminate |].
  destruct (p a) eqn:Ha; simpl; [| exact IH].
  intros [= <-]. exact Ha.
Qed.

Lemma str_not_empty (tag : string) (attrs : list (string * string))
    (children : list node) :
  bs4.str (Elem tag attrs children) ≠ "".
Proof.
  unfold bs4.str. destruct children; simpl;
    repeat match goal with
           | |- context [if ?b then _ else _] => destruct b
           end;
    vm_compute; discriminate.
Qed.

(** What the locator returns is the text of an element, never [''], so the
    orchestrator's test on it fails for [None] only. *)
Lemma extract_main_content_truthy `{Library} (html_content m : string) :
  extract_main_content html_content = Some m → truthy_str (Some m) = true.
Proof.
  rewrite extract_main_content_spec. unfold locate_spec.
  destruct (List.find _ _) as [sel |];
    (destruct (head (matching _ _)) as [n |] eqn:Hn; [| discriminate]);
    apply head_filter_true in Hn; destruct n; try discriminate;
    intros [= <-]; simpl; apply negb_true_iff, String.eqb_neq, str_not_empty.
Qed.

(** A soup without elements has no content region. *)
Lemma no_elements_absent `{Library} (html_content : string) :
  forallb (λ n, negb (is_element n)) (descendants (BeautifulSoup html_content)) = true →
  extract_main_content html_content = None.
Proof.
  intros Hno. rewrite extract_main_content_spec. unfold locate_spec.
  assert (Hnil : ∀ sel, matching (BeautifulSoup html_content) sel = []).
  { intros sel. unfold matching.
    induction (descendants _) as [| n l IH]; [reflexivity |].
    simpl in *. apply andb_prop in Hno as [Hn Hl].
    destruct n; try discriminate; simpl; auto. }
  simpl. rewrite !Hnil. reflexivity.
Qed.

(** C10. Some non-empty input has no content region: ["Just text"] parses
    to a single string, no selector selects anything in it, there is no
    [<body>], and the locator returns [None]. *)
Theorem plain_text_is_absent :
  ∃ html_content : string,
    html_content ≠ ""
    ∧ @BeautifulSoup (sample.library []) html_content = [Text html_content]
    ∧ Forall (λ sel, bs4.select_one [Text html_content] sel = None) main_selectors
    ∧ bs4.find [Text html_content] "body" = None
    ∧ @extract_main_content (sample.library []) html_content = None.
Proof.
  exists "Just text". split; [discriminate |]. split; [reflexivity |].
  split; [repeat constructor |]. split; [reflexivity |].
  apply no_elements_absent. reflexivity.
Qed.

(** ** The sanitizer's failure *)

Lemma clean_html_raises `{Library} (html_string : string) (e : exn) :
  html_string ≠ "" →
  fromstring html_string = Raises e →
  clean_html html_string = Raises e.
Proof.
  intros Hne Hparse. unfold clean_html. simpl.
  apply String.eqb_neq in Hne. rewrite Hne, Hparse. reflexivity.
Qed.

(** C2 (as amended). When lxml's parser raises on a non-empty fragment,
    [clean_html] returns nothing: the parser's exception leaves it
    unchanged.  Only the empty fragment gives the empty string, without
    parsing, so the two cases differ for the caller. *)
Theorem parse_failure_propagates `{Library} (html_string : string) (e : exn) :
  html_string ≠ "" →
  fromstring html_string = Raises e →
  clean_html html_string = Raises e
  ∧ ¬ surfaces_as_value (clean_html html_string)
  ∧ clean_html "" = Returns "".
Proof.
  intros Hne Hparse. rewrite (clean_html_raises _ _ Hne Hparse).
  split; [reflexivity |]. split; [| reflexivity].
  intros [v Hv]. discriminate.
Qed.

Lemma parse_failure_propagates_witness :
  " " ≠ ""
  ∧ @clean_html (sample.library []) " "
    = Raises (Exception "ParserError" "Document is empty").
Proof.
  split; [discriminate |].
  apply (@parse_failure_propagates (sample.library []) " "
           (Exception "ParserError" "Document is empty"));
    [discriminate | reflexivity].
Defined.

(** C2 (as stated) fails on a blank fragment: lxml cannot parse it, and
    what comes out of [clean_html] is lxml's [ParserError], raised, not a
    value of any kind. *)
Lemma blank_fragment_raises :
  @fromstring (sample.library []) " "
    = Raises (Exception "ParserError" "Document is empty")
  ∧ ¬ surfaces_as_value (@clean_html (sample.library []) " ").
Proof.
  split; [reflexivity |]. intros [v Hv]. vm_compute in Hv. discriminate.
Qed.

(** ** The orchestrator *)

Lemma fetched `{Library} (url html : string) :
  page_content url = Returns html →
  get_page_source_with_js url = ([], Returns (Some html)).
Proof. intros Hpage. unfold get_page_source_with_js. rewrite Hpage. reflexivity. Qed.

(** C9 (as amended). The locator, called on the empty string, finds no
    region.  The orchestrator never calls it on the empty string: an empty
    page fails the test made on the fetched source, and the run ends with
    the fetch message after the first line of output; the locator, the
    sanitizer and the transformer are not reached. *)
Theorem empty_page_is_fetch_failure `{Library} (url : string) :
  BeautifulSoup "" = [] →
  page_content url = Returns "" →
  extract_main_content "" = None
  ∧ scrape_robustly url
    = (["Fetching page with Playwright..."], Returns FetchFailed).
Proof.
  intros Hsoup Hpage. split.
  - apply no_elements_absent. rewrite Hsoup. reflexivity.
  - unfold scrape_robustly. rewrite (fetched url "" Hpage). reflexivity.
Qed.

Lemma empty_page_is_fetch_failure_witness :
  @extract_main_content (sample.library [("about:blank", "")]) "" = None
  ∧ @scrape_robustly (sample.library [("about:blank", "")]) "about:blank"
    = (["Fetching page with Playwright..."], Returns "Failed to fetch content.").
Proof.
  apply (@empty_page_is_fetch_failure (sample.library [("about:blank", "")])
           "about:blank"); reflexivity.
Defined.

(** C9 (as stated) fails: on a page whose source is the empty string the
    orchestrator does not return the no-content outcome. *)
Lemma empty_page_not_no_content :
  @page_content (sample.library [("about:blank", "")]) "about:blank" = Returns ""
  ∧ (@scrape_robustly (sample.library [("about:blank", "")]) "about:blank").2
    ≠ Returns NoContentFound.
Proof. split; [reflexivity |]. vm_compute. discriminate. Qed.

(** C3 (as amended). With a page fetched: when the locator finds no region
    the run stops after the second line of output and returns the fixed
    no-content message, an ordinary string; when the sanitizer raises on
    the region, in lxml's parser or in its cleaner, the run stops after the
    third line and the exception leaves the orchestrator as it is.  In both
    cases the transformer is not reached and no Markdown comes out. *)
Theorem stage_failure_halts `{Library} (url html : string) :
  page_content url = Returns html →
  html ≠ "" →
  (extract_main_content html = None →
   scrape_robustly url
   = (["Fetching page with Playwright..."; "Identifying main content area..."],
      Returns NoContentFound))
  ∧ (∀ (region : string) (e : exn),
       extract_main_content html = Some region →
       clean_html region = Raises e →
       scrape_robustly url
       = (["Fetching page with Playwright..."; "Identifying main content area...";
           "Cleaning HTML..."],
          Raises e)).
Proof.
  intros Hpage Hne. apply String.eqb_neq in Hne.
  split.
  - intros Hnone. unfold scrape_robustly.
    rewrite (fetched url html Hpage). simpl. rewrite Hne. simpl.
    rewrite Hnone. reflexivity.
  - intros region e Hsome Hclean. unfold scrape_robustly.
    rewrite (fetched url html Hpage). simpl. rewrite Hne. simpl.
    rewrite Hsome. pose proof (extract_main_content_truthy _ _ Hsome) as Ht.
    simpl in Ht. simpl. rewrite Ht.
    simpl. rewrite Hclean. reflexivity.
Qed.

Lemma stage_failure_halts_witness :
  @scrape_robustly (sample.library [("http://a", "Just text")]) "http://a"
  = (["Fetching page with Playwright..."; "Identifying main content area..."],
     Returns "Could not identify main content.")
  ∧ @scrape_robustly (sample.library [("http://b", "<param class='main'>")])
      "http://b"
    = (["Fetching page with Playwright..."; "Identifying main content area...";
        "Cleaning HTML..."],
       Raises (Exception "AssertionError" "")).
Proof.
  split.
  - apply (@stage_failure_halts (sample.library [("http://a", "Just text")])
             "http://a" "Just text"); [reflexivity | discriminate | reflexivity].
  - apply (@stage_failure_halts
             (sample.library [("http://b", "<param class='main'>")])
             "http://b" "<param class='main'>" eq_refl)
      with (region := bs4.str (Elem "param" [("class", "main")] []));
      [discriminate | reflexivity | reflexivity].
Defined.

(** C3 (as stated) fails where the sanitizer fails: on a page whose region
    is a [<param>] element the locator selects it by its class, lxml parses
    it, the cleaner fails an assertion on it, and the run ends with that
    [AssertionError], raised, not with a value, stage-tagged or other. *)
Lemma sanitizer_failure_is_raised :
  @page_content (sample.library [("http://b", "<param class='main'>")]) "http://b"
    = Returns "<param class='main'>"
  ∧ @extract_main_content (sample.library [("http://b", "<param class='main'>")])
      "<param class='main'>"
    = Some (bs4.str (Elem "param" [("class", "main")] []))
  ∧ @fromstring (sample.library [("http://b", "<param class='main'>")])
      (bs4.str (Elem "param" [("class", "main")] []))
    = Returns (Elem "param" [("class", "main")] [])
  ∧ @clean_html (sample.library [("http://b", "<param class='main'>")])
      (bs4.str (Elem "param" [("class", "main")] []))
    = Raises (Exception "AssertionError" "")
  ∧ ¬ surfaces_as_value
        (@scrape_robustly (sample.library [("http://b", "<param class='main'>")])
           "http://b").2.
Proof.
  split; [reflexivity |]. split; [reflexivity |]. split; [reflexivity |].
  split; [reflexivity |].
  intros [v Hv]; vm_compute in Hv; discriminate.
Qed.

(** ** Character data of a tree *)

Lemma append_nil_r (s : string) : s +:+ "" = s.
Proof.
  induction s as [| c s IH]; [reflexivity |].
  change (String c s +:+ "") with (String c (s +:+ "")). rewrite IH. reflexivity.
Qed.

Lemma append_assoc (a b c : string) : (a +:+ b) +:+ c = a +:+ (b +:+ c).
Proof.
  induction a as [| x a IH]; [reflexivity |].
  change (String x ((a +:+ b) +:+ c) = String x (a +:+ (b +:+ c))).
  rewrite IH. reflexivity.
Qed.

Lemma concat_strings_app (a b : list string) :
  concat_strings (a ++ b) = concat_strings a +:+ concat_strings b.
Proof.
  induction a as [| x a IH]; [reflexivity |].
  cbn [app concat_strings]. rewrite IH, append_assoc. reflexivity.
Qed.

Lemma text_nodes_app (a b : list node) :
  text_nodes (a ++ b) = text_nodes a ++ text_nodes b.
Proof. unfold text_nodes, descendants. rewrite List.flat_map_app. apply omap_app. Qed.

Lemma text_nodes_cons (n : node) (l : list node) :
  text_nodes (n :: l) = text_nodes [n] ++ text_nodes l.
Proof. apply (text_nodes_app [n] l). Qed.

Lemma text_nodes_elem (tag : string) (attrs : list (string * string))
    (children : list node) :
  text_nodes [Elem tag attrs children] = text_nodes children.
Proof.
  unfold text_nodes, descendants. simpl. rewrite List.app_nil_r. reflexivity.
Qed.

Lemma text_nodes_flat_map (g : node → list node) (l : list node) :
  text_nodes (flat_map g l) = flat_map (λ n, text_nodes (g n)) l.
Proof.
  induction l as [| n l IH]; simpl; [reflexivity |].
  rewrite text_nodes_app, IH. reflexivity.
Qed.

Lemma flat_map_ext_Forall {A B : Type} (f g : A → list B) (l : list A) :
  Forall (λ x, f x = g x) l → flat_map f l = flat_map g l.
Proof. induction 1 as [| x l Hx _ IH]; simpl; [reflexivity |]. rewrite Hx, IH. reflexivity. Qed.

Lemma concat_flat_map_ext {A : Type} (f g : A → list string) (l : list A) :
  Forall (λ x, concat_strings (f x) = concat_strings (g x)) l →
  concat_strings (flat_map f l) = concat_strings (flat_map g l).
Proof.
  induction 1 as [| x l Hx _ IH]; [reflexivity |].
  cbn [flat_map]. rewrite !concat_strings_app, Hx, IH. reflexivity.
Qed.

(** Joining runs of text changes neither the text nor what is true of the
    elements and comments. *)
Lemma join_text_text (l : list node) :
  concat_strings (text_nodes (join_text l)) = concat_strings (text_nodes l).
Proof.
  induction l as [| n l IH]; [reflexivity |].
  destruct n as [a | a | tag attrs children].
  - cbn [join_text]. rewrite (text_nodes_cons (Text a) l), concat_strings_app.
    rewrite <- IH.
    change (concat_strings (text_nodes [Text a])) with (a +:+ "").
    rewrite append_nil_r.
    destruct (join_text l) as [| [b | b | tag attrs children] r'];
      try reflexivity.
    rewrite (text_nodes_cons (Text (a +:+ b)) r'), (text_nodes_cons (Text b) r').
    rewrite !concat_strings_app.
    change (concat_strings (text_nodes [Text (a +:+ b)])) with ((a +:+ b) +:+ "").
    change (concat_strings (text_nodes [Text b])) with (b +:+ "").
    rewrite !append_nil_r, append_assoc. reflexivity.
  - cbn [join_text].
    rewrite (text_nodes_cons (Comment a) (join_text l)),
      (text_nodes_cons (Comment a) l), !concat_strings_app, IH.
    reflexivity.
  - cbn [join_text].
    rewrite (text_nodes_cons (Elem tag attrs children) (join_text l)),
      (text_nodes_cons (Elem tag attrs children) l), !concat_strings_app, IH.
    reflexivity.
Qed.

Lemma existsb_join_text (q : node → bool) (l : list node) :
  (∀ s, q (Text s) = false) → existsb q (join_text l) = existsb q l.
Proof.
  intros Htext. induction l as [| n l IH]; [reflexivity |].
  destruct n as [a | a | tag attrs children].
  - cbn [join_text existsb]. rewrite Htext, <- IH. cbn [orb].
    destruct (join_text l) as [| [b | b | tag attrs children] r'];
      cbn [existsb]; rewrite ?Htext; reflexivity.
  - cbn [join_text existsb]. rewrite IH. reflexivity.
  - cbn [join_text existsb]. rewrite IH. reflexivity.
Qed.

Lemma forallb_join_text (q : node → bool) (l : list node) :
  (∀ s, q (Text s) = true) → forallb q (join_text l) = forallb q l.
Proof.
  intros Htext. induction l as [| n l IH]; [reflexivity |].
  destruct n as [a | a | tag attrs children].
  - cbn [join_text forallb]. rewrite Htext, <- IH. cbn [andb].
    destruct (join_text l) as [| [b | b | tag attrs children] r'];
      cbn [forallb]; rewrite ?Htext; reflexivity.
  - cbn [join_text forallb]. rewrite IH. reflexivity.
  - cbn [join_text forallb]. rewrite IH. reflexivity.
Qed.

Lemma join_text_joined (l : list node) : text_joined (join_text l) = true.
Proof.
  induction l as [| n l IH]; [reflexivity |].
  destruct n as [a | a | tag attrs children].
  - cbn [join_text].
    destruct (join_text l) as [| [b | b | tag attrs children] r'].
    + reflexivity.
    + exact IH.
    + cbn [text_joined is_text] in *. exact IH.
    + cbn [text_joined is_text] in *. exact IH.
  - cbn [join_text text_joined is_text]. exact IH.
  - cbn [join_text text_joined is_text]. exact IH.
Qed.

Lemma join_text_fixed (l : list node) : text_joined l = true → join_text l = l.
Proof.
  induction l as [| n l IH]; [reflexivity |].
  cbn [text_joined]. intros Hl. apply andb_prop in Hl as [Hhead Hl].
  destruct n as [a | a | tag attrs children].
  - cbn [join_text]. rewrite (IH Hl).
    destruct l as [| [b | b | tag attrs children] r']; try reflexivity.
    discriminate Hhead.
  - cbn [join_text]. rewrite (IH Hl). reflexivity.
  - cbn [join_text]. rewrite (IH Hl). reflexivity.
Qed.

(** ** The cleaner on a tree *)

Lemma kill_tags_cleaner :
  kill_tags cleaner
  = {[ "script"; "style"; "link"; "meta"; "applet"; "frameset"; "frame";
       "noframes"; "button"; "input"; "select"; "textarea" ]}.
Proof. vm_cast_no_check (eq_refl (kill_tags cleaner)). Qed.

Lemma remove_tags_cleaner :
  remove_tags cleaner
  = {[ "iframe"; "embed"; "layer"; "object"; "param"; "form"; "blink";
       "marquee" ]}.
Proof. vm_cast_no_check (eq_refl (remove_tags cleaner)). Qed.

(** Renaming [<image>] and rewriting attributes changes no text and no
    decision of the later passes. *)
Lemma surviving_text_scrub `{Library} (in_object : bool) (n : node) :
  surviving_text cleaner in_object (scrub cleaner n)
  = surviving_text cleaner in_object n.
Proof.
  revert in_object.
  induction n as [s | s | tag attrs children IH] using node_ind';
    intros in_object; try reflexivity.
  simpl scrub. destruct (String.eqb tag "image") eqn:Himage.
  - apply String.eqb_eq in Himage. subst tag. simpl.
    rewrite flat_map_concat_map, List.map_map, <- flat_map_concat_map.
    apply flat_map_ext_Forall.
    eapply Forall_impl; [exact IH |]. intros c Hc. apply Hc.
  - simpl. destruct (_ && _); [reflexivity |].
    destruct (in_tags tag _); [reflexivity |].
    rewrite flat_map_concat_map, List.map_map, <- flat_map_concat_map.
    apply flat_map_ext_Forall.
    eapply Forall_impl; [exact IH |]. intros c Hc. apply Hc.
Qed.

(** The text of what is left of a node is the text of the node outside the
    elements dropped with their content. *)
Lemma text_nodes_prune (c : Cleaner) (in_object : bool) (n : node) :
  concat_strings (text_nodes (prune c in_object n))
  = concat_strings (surviving_text c in_object n).
Proof.
  revert in_object.
  induction n as [s | s | tag attrs children IH] using node_ind';
    intros in_object.
  - reflexivity.
  - simpl. destruct (comments c); reflexivity.
  - simpl. destruct (_ && _); [reflexivity |].
    destruct (in_tags tag (kill_tags c)); [reflexivity |].
    assert (Hkids :
      concat_strings (text_nodes (join_text (flat_map
        (prune c (in_object || String.eqb tag "applet" || String.eqb tag "object"))
        children)))
      = concat_strings (flat_map
          (surviving_text c
             (in_object || String.eqb tag "applet" || String.eqb tag "object"))
          children)).
    { rewrite join_text_text, text_nodes_flat_map. apply concat_flat_map_ext.
      eapply Forall_impl; [exact IH |]. intros k Hk. apply Hk. }
    destruct (in_tags tag (remove_tags c)); [exact Hkids |].
    rewrite text_nodes_elem. exact Hkids.
Qed.

Lemma text_nodes_drop_unknown `{Library} (n : node) :
  concat_strings (text_nodes (drop_unknown n)) = concat_strings (text_nodes [n]).
Proof.
  induction n as [s | s | tag attrs children IH] using node_ind';
    try reflexivity.
  simpl drop_unknown.
  assert (Hkids :
    concat_strings (text_nodes (join_text (flat_map drop_unknown children)))
    = concat_strings (text_nodes children)).
  { rewrite join_text_text, text_nodes_flat_map. clear -IH.
    induction IH as [| k l Hk _ IHl]; [reflexivity |].
    cbn [flat_map].
    rewrite (text_nodes_cons k l), !concat_strings_app, Hk, IHl. reflexivity. }
  rewrite text_nodes_elem.
  destruct (defs_tags tag); [rewrite text_nodes_elem |]; exact Hkids.
Qed.

Lemma text_nodes_drop_unknown_root `{Library} (doc : node) :
  concat_strings (text_nodes [drop_unknown_root doc])
  = concat_strings (text_nodes [doc]).
Proof.
  destruct doc as [s | s | tag attrs children]; try reflexivity.
  simpl drop_unknown_root.
  assert (Hkids :
    concat_strings (text_nodes (join_text (flat_map drop_unknown children)))
    = concat_strings (text_nodes children)).
  { rewrite join_text_text, text_nodes_flat_map.
    induction children as [| k l IHl]; [reflexivity |].
    cbn [flat_map].
    rewrite (text_nodes_cons k l), !concat_strings_app, text_nodes_drop_unknown,
      IHl.
    reflexivity. }
  destruct (defs_tags tag); rewrite !text_nodes_elem; exact Hkids.
Qed.

Lemma text_nodes_add_nofollow (n : node) :
  text_nodes [add_nofollow_pass n] = text_nodes [n].
Proof.
  induction n as [s | s | tag attrs children IH] using node_ind';
    try reflexivity.
  simpl add_nofollow_pass. rewrite !text_nodes_elem.
  induction IH as [| k l Hk _ IHl]; simpl; [reflexivity |].
  rewrite text_nodes_cons, Hk, IHl. symmetry. apply text_nodes_cons.
Qed.

Lemma existsb_flat_map_false {A B : Type} (q : B → bool) (g : A → list B)
    (l : list A) :
  Forall (λ x, existsb q (g x) = false) l → existsb q (flat_map g l) = false.
Proof.
  induction 1 as [| x l Hx _ IH]; simpl; [reflexivity |].
  rewrite List.existsb_app, Hx, IH. reflexivity.
Qed.

(** The same for the children of an element, once the runs of text are
    joined. *)
Lemma existsb_joined_false {A : Type} (q : node → bool) (g : A → list node)
    (l : list A) :
  (∀ s, q (Text s) = false) →
  Forall (λ x, existsb q (g x) = false) l →
  existsb q (join_text (flat_map g l)) = false.
Proof.
  intros Htext Hl. rewrite (existsb_join_text q _ Htext).
  apply existsb_flat_map_false, Hl.
Qed.


Lemma has_tag_prune (p : string → bool) (in_object : bool) (n : node) :
  only_killed p → existsb (has_tag p) (prune cleaner in_object n) = false.
Proof.
  intros Hp. revert in_object.
  induction n as [s | s | tag attrs children IH] using node_ind';
    intros in_object; try reflexivity.
  simpl prune. destruct (_ && _); [reflexivity |].
  destruct (in_tags tag (kill_tags cleaner)) eqn:Hkill; [reflexivity |].
  assert (Hkids :
    existsb (has_tag p)
      (join_text (flat_map
         (prune cleaner
            (in_object || String.eqb tag "applet" || String.eqb tag "object"))
         children)) = false).
  { apply existsb_joined_false; [reflexivity |].
    eapply Forall_impl; [exact IH |]. intros k Hk. apply Hk. }
  destruct (in_tags tag (remove_tags cleaner)); [exact Hkids |].
  simpl. rewrite Hkids.
  destruct (p tag) eqn:Hptag; [| reflexivity].
  apply Hp in Hptag. congruence.
Qed.

Lemma has_tag_drop_unknown `{Library} (p : string → bool) (n : node) :
  has_tag p n = false → existsb (has_tag p) (drop_unknown n) = false.
Proof.
  induction n as [s | s | tag attrs children IH] using node_ind';
    try (intros _; reflexivity).
  simpl. intros Hn. apply orb_false_elim in Hn as [Htag Hkids].
  assert (Hkids' :
    existsb (has_tag p) (join_text (flat_map drop_unknown children)) = false).
  { apply existsb_joined_false; [reflexivity |]. clear -IH Hkids.
    induction IH as [| k l Hk _ IHl]; constructor;
      simpl in Hkids; apply orb_false_elim in Hkids as [Hk' Hl]; auto. }
  destruct (defs_tags tag); [| exact Hkids'].
  simpl. rewrite Htag, Hkids'. reflexivity.
Qed.

Lemma has_tag_drop_unknown_root `{Library} (p : string → bool) (doc : node) :
  p "div" = false →
  has_tag p doc = false → has_tag p (drop_unknown_root doc) = false.
Proof.
  intros Hdiv. destruct doc as [s | s | tag attrs children]; try (intros _; reflexivity).
  simpl. intros Hn. apply orb_false_elim in Hn as [Htag Hkids].
  assert (Hkids' :
    existsb (has_tag p) (join_text (flat_map drop_unknown children)) = false).
  { apply existsb_joined_false; [reflexivity |].
    induction children as [| k l IHl]; constructor;
      simpl in Hkids; apply orb_false_elim in Hkids as [Hk' Hl];
      [apply has_tag_drop_unknown; exact Hk' | auto]. }
  destruct (defs_tags tag); simpl; rewrite ?Htag, ?Hdiv, Hkids'; reflexivity.
Qed.


(** The cleaner fails its assertion on the trees of [fails_assertion], and
    the attribute passes do not change which trees these are. *)
Lemma prune_root_fails (c : Cleaner) (doc : node) :
  fails_assertion c doc = true →
  prune_root c doc = Raises (Exception "AssertionError" "").
Proof.
  destruct doc as [s | s | tag attrs children]; try discriminate.
  unfold fails_assertion, prune_root.
  destruct (embedded c && String.eqb tag "param"); [reflexivity |].
  destruct (in_tags tag (kill_tags c)); [| discriminate].
  simpl. intros ->. reflexivity.
Qed.

Lemma prune_root_returns (c : Cleaner) (doc : node) :
  fails_assertion c doc = false → ∃ pruned, prune_root c doc = Returns pruned.
Proof.
  destruct doc as [s | s | tag attrs children]; try (eexists; reflexivity).
  unfold fails_assertion, prune_root.
  destruct (embedded c && String.eqb tag "param"); [discriminate |].
  destruct (in_tags tag (kill_tags c)).
  - simpl. intros ->. eexists. reflexivity.
  - intros _. destruct (in_tags tag (remove_tags c)); eexists; reflexivity.
Qed.

Lemma queued_scrub `{Library} (in_object : bool) (n : node) :
  queued cleaner in_object (scrub cleaner n) = queued cleaner in_object n.
Proof.
  destruct n as [s | s | tag attrs children]; try reflexivity.
  simpl scrub. destruct (String.eqb tag "image") eqn:Himage; [| reflexivity].
  apply String.eqb_eq in Himage. subst tag. reflexivity.
Qed.

Lemma fails_assertion_scrub `{Library} (doc : node) :
  fails_assertion cleaner (scrub cleaner doc) = fails_assertion cleaner doc.
Proof.
  destruct doc as [s | s | tag attrs children]; try reflexivity.
  simpl scrub.
  assert (Hkids : ∀ in_object,
    existsb (queued cleaner in_object) (map (scrub cleaner) children)
    = existsb (queued cleaner in_object) children).
  { intros in_object. induction children as [| k l IHl]; simpl; [reflexivity |].
    rewrite queued_scrub, IHl. reflexivity. }
  destruct (String.eqb tag "image") eqn:Himage.
  - apply String.eqb_eq in Himage. subst tag. reflexivity.
  - unfold fails_assertion. rewrite Hkids. reflexivity.
Qed.

(** The structural passes on the root: unless the assertion fails, they
    return; they keep exactly the text that survives and leave no killed
    element. *)
Lemma prune_root_scrub `{Library} (doc : node) :
  fails_assertion cleaner doc = false →
  ∃ pruned,
    prune_root cleaner (scrub cleaner doc) = Returns pruned
    ∧ concat_strings (text_nodes [pruned])
      = concat_strings (surviving_text cleaner false doc)
    ∧ ∀ p, only_killed p → p "div" = false → has_tag p pruned = false.
Proof.
  intros Hfails. rewrite <- (surviving_text_scrub false doc).
  rewrite <- fails_assertion_scrub in Hfails.
  destruct (scrub cleaner doc) as [s | s | tag attrs children].
  - exists (Text s). repeat split; reflexivity.
  - exists (Comment s). repeat split; reflexivity.
  - unfold fails_assertion in Hfails.
    apply orb_false_elim in Hfails as [Hparam Hqueued].
    change (embedded cleaner) with true in Hparam. simpl in Hparam.
    unfold prune_root.
    rewrite Hparam, andb_false_r. simpl surviving_text.
    rewrite Hparam. simpl.
    destruct (in_tags tag (kill_tags cleaner)) eqn:Hkill.
    + simpl in Hqueued. rewrite Hqueued.
      eexists. split; [reflexivity |]. split; [reflexivity |].
      intros p Hp Hdiv. simpl.
      destruct (String.eqb tag "html") eqn:Hhtml; [| rewrite Hdiv; reflexivity].
      apply String.eqb_eq in Hhtml. subst tag. discriminate.
    + assert (Htext :
        concat_strings (text_nodes (join_text (flat_map
          (prune cleaner (String.eqb tag "applet" || String.eqb tag "object"))
          children)))
        = concat_strings (flat_map
            (surviving_text cleaner
               (String.eqb tag "applet" || String.eqb tag "object"))
            children)).
      { rewrite join_text_text, text_nodes_flat_map. apply concat_flat_map_ext.
        apply Forall_forall. intros k _. apply text_nodes_prune. }
      assert (Hno : ∀ p, only_killed p →
        existsb (has_tag p)
          (join_text (flat_map
             (prune cleaner (String.eqb tag "applet" || String.eqb tag "object"))
             children)) = false).
      { intros p Hp. apply existsb_joined_false; [reflexivity |].
        apply Forall_forall. intros k _. apply has_tag_prune, Hp. }
      destruct (in_tags tag (remove_tags cleaner)).
      * eexists. split; [reflexivity |]. rewrite text_nodes_elem.
        split; [exact Htext |]. intros p Hp Hdiv. simpl.
        rewrite Hdiv, (Hno p Hp). reflexivity.
      * eexists. split; [reflexivity |]. rewrite text_nodes_elem.
        split; [exact Htext |]. intros p Hp Hdiv. simpl.
        rewrite (Hno p Hp).
        destruct (p tag) eqn:Hptag; [| reflexivity].
        apply Hp in Hptag. congruence.
Qed.

(** Switching [add_nofollow] off changes no other pass. *)
Lemma scrub_without_nofollow `{Library} (c : Cleaner) (n : node) :
  scrub (without_nofollow c) n = scrub c n.
Proof.
  induction n as [s | s | tag attrs children IH] using node_ind';
    try reflexivity.
  simpl scrub. f_equal.
  induction IH as [| k l Hk _ IHl]; simpl; [reflexivity |].
  rewrite Hk, IHl. reflexivity.
Qed.

Lemma prune_without_nofollow (c : Cleaner) (in_object : bool) (n : node) :
  prune (without_nofollow c) in_object n = prune c in_object n.
Proof.
  revert in_object.
  induction n as [s | s | tag attrs children IH] using node_ind';
    intros in_object; try reflexivity.
  simpl prune.
  change (embedded (without_nofollow c)) with (embedded c).
  change (kill_tags (without_nofollow c)) with (kill_tags c).
  change (remove_tags (without_nofollow c)) with (remove_tags c).
  destruct (_ && _); [reflexivity |].
  destruct (in_tags tag (kill_tags c)); [reflexivity |].
  rewrite (flat_map_ext_Forall
             (prune (without_nofollow c)
                (in_object || String.eqb tag "applet" || String.eqb tag "object"))
             (prune c
                (in_object || String.eqb tag "applet" || String.eqb tag "object"))
             children);
    [reflexivity |].
  eapply Forall_impl; [exact IH |]. intros k Hk. apply Hk.
Qed.

Lemma prune_root_without_nofollow (c : Cleaner) (doc : node) :
  prune_root (without_nofollow c) doc = prune_root c doc.
Proof.
  destruct doc as [s | s | tag attrs children]; try reflexivity.
  unfold prune_root.
  change (embedded (without_nofollow c)) with (embedded c).
  change (kill_tags (without_nofollow c)) with (kill_tags c).
  change (remove_tags (without_nofollow c)) with (remove_tags c).
  destruct (_ && _); [reflexivity |].
  destruct (in_tags tag (kill_tags c)).
  - assert (Hq : ∀ in_object,
      existsb (queued (without_nofollow c) in_object) children
      = existsb (queued c in_object) children).
    { intros in_object. induction children as [| k l IHl]; simpl; [reflexivity |].
      rewrite IHl. destruct k; reflexivity. }
    rewrite Hq. reflexivity.
  - rewrite (flat_map_ext_Forall
               (prune (without_nofollow c)
                  (String.eqb tag "applet" || String.eqb tag "object"))
               (prune c (String.eqb tag "applet" || String.eqb tag "object"))
               children);
      [reflexivity |].
    apply Forall_forall. intros k _. apply prune_without_nofollow.
Qed.

(** ** The [nofollow] pass *)

Lemma prefix_app (n b : string) : String.prefix n (n +:+ b) = true.
Proof.
  induction n as [| a n IH]; [destruct b; reflexivity |].
  simpl. destruct (ascii_dec a a); [exact IH | congruence].
Qed.

Lemma prefix_refl (n : string) : String.prefix n n = true.
Proof. rewrite <- (append_nil_r n) at 2. apply prefix_app. Qed.

Lemma contains_app (n a : string) : contains n (a +:+ n) = true.
Proof.
  induction a as [| c a IH].
  - change ("" +:+ n) with n.
    destruct n; simpl; [reflexivity |].
    destruct (ascii_dec a a); [| congruence]. rewrite prefix_refl. reflexivity.
  - change (String c a +:+ n) with (String c (a +:+ n)).
    simpl. rewrite IH. apply orb_true_r.
Qed.

Lemma has_nofollow_appended (r : string) : has_nofollow (r +:+ " nofollow") = true.
Proof.
  unfold has_nofollow.
  replace (" " +:+ (r +:+ " nofollow") +:+ " ")
    with ((" " +:+ r) +:+ " nofollow ").
  - apply contains_app.
  - rewrite !append_assoc. reflexivity.
Qed.

Lemma get_attr_set_attr (key value : string) (attrs : list (string * string)) :
  bs4.get_attr key (set_attr key value attrs) = Some value.
Proof.
  induction attrs as [| [k v] r IH]; simpl.
  - rewrite String.eqb_refl. reflexivity.
  - destruct (String.eqb k key) eqn:Hk; simpl; rewrite Hk; [reflexivity | exact IH].
Qed.

Lemma get_attr_set_attr_ne (key key' value : string)
    (attrs : list (string * string)) :
  key ≠ key' →
  bs4.get_attr key' (set_attr key value attrs) = bs4.get_attr key' attrs.
Proof.
  intros Hne. induction attrs as [| [k v] r IH]; simpl.
  - apply String.eqb_neq in Hne. rewrite Hne. reflexivity.
  - destruct (String.eqb k key) eqn:Hk; simpl.
    + apply String.eqb_eq in Hk. subst k.
      apply String.eqb_neq in Hne. rewrite Hne. reflexivity.
    + destruct (String.eqb k key'); [reflexivity | exact IH].
Qed.

Lemma nofollow_rel_spec (rel : option string) :
  match nofollow_rel rel with
  | Some written => has_nofollow written = true
  | None => ∃ r, rel = Some r ∧ has_nofollow r = true
  end.
Proof.
  unfold nofollow_rel. destruct rel as [r |]; [| reflexivity].
  destruct (negb (String.eqb r "")); [| reflexivity].
  destruct (contains "nofollow" r && contains " nofollow " (" " +:+ r +:+ " "))
    eqn:Hhas.
  - exists r. split; [reflexivity |].
    apply andb_prop in Hhas as [_ Hhas]. exact Hhas.
  - apply has_nofollow_appended.
Qed.

(** After the pass an anchor whose [href] leads out of the page has
    [nofollow] in its [rel]. *)
Lemma mark_nofollow_marked (attrs : list (string * string)) (href : string) :
  bs4.get_attr "href" (mark_nofollow "a" attrs) = Some href →
  is_external_href href = true →
  rel_has_nofollow (mark_nofollow "a" attrs) = true.
Proof.
  unfold mark_nofollow. rewrite String.eqb_refl.
  destruct (bs4.get_attr "href" attrs) as [href0 |] eqn:Hhref;
    [| rewrite Hhref; discriminate].
  destruct (is_external_href href0) eqn:Hext.
  - pose proof (nofollow_rel_spec (bs4.get_attr "rel" attrs)) as Hspec.
    destruct (nofollow_rel _) as [written |]; intros _ _; unfold rel_has_nofollow.
    + rewrite get_attr_set_attr. exact Hspec.
    + destruct Hspec as (r & Hr & Hn). rewrite Hr. exact Hn.
  - rewrite Hhref. intros [= <-] Hext'. congruence.
Qed.

Lemma add_nofollow_marks (n : node) :
  external_links_marked (add_nofollow_pass n) = true.
Proof.
  induction n as [s | s | tag attrs children IH] using node_ind';
    try reflexivity.
  simpl. apply andb_true_intro. split.
  - destruct (String.eqb tag "a") eqn:Ha; [| reflexivity].
    apply String.eqb_eq in Ha. subst tag.
    destruct (bs4.get_attr "href" (mark_nofollow "a" attrs)) as [href |] eqn:Hhref;
      [| reflexivity].
    destruct (is_external_href href) eqn:Hext; [| reflexivity].
    simpl. apply (mark_nofollow_marked attrs href Hhref Hext).
  - induction IH as [| k l Hk _ IHl]; simpl; [reflexivity |].
    rewrite Hk, IHl. reflexivity.
Qed.

(** ** The sanitizer as a whole *)

Lemma other_attrs_set_rel (rel : string) (attrs : list (string * string)) :
  other_attrs (set_attr "rel" rel attrs) = other_attrs attrs.
Proof.
  unfold other_attrs.
  induction attrs as [| [k v] r IH]; [reflexivity |].
  simpl. destruct (String.eqb k "rel") eqn:Hk; simpl; rewrite Hk; simpl;
    [reflexivity | rewrite IH; reflexivity].
Qed.

Lemma mark_nofollow_marked_from (tag : string) (attrs : list (string * string)) :
  marked_from tag attrs (mark_nofollow tag attrs) = true.
Proof.
  unfold marked_from, is_external_anchor, mark_nofollow.
  destruct (String.eqb tag "a"); simpl; [| apply bool_decide_eq_true; reflexivity].
  destruct (bs4.get_attr "href" attrs) as [href |];
    [| apply bool_decide_eq_true; reflexivity].
  destruct (is_external_href href); [| apply bool_decide_eq_true; reflexivity].
  pose proof (nofollow_rel_spec (bs4.get_attr "rel" attrs)) as Hspec.
  destruct (nofollow_rel _) as [written |]; apply andb_true_intro; split.
  - unfold rel_has_nofollow. rewrite get_attr_set_attr. exact Hspec.
  - apply bool_decide_eq_true, other_attrs_set_rel.
  - destruct Hspec as (r & Hr & Hn). unfold rel_has_nofollow. rewrite Hr. exact Hn.
  - apply bool_decide_eq_true. reflexivity.
Qed.

Lemma add_nofollow_only_external (n : node) :
  only_external_marked n (add_nofollow_pass n) = true.
Proof.
  induction n as [s | s | tag attrs children IH] using node_ind';
    try apply String.eqb_refl.
  simpl. rewrite String.eqb_refl, mark_nofollow_marked_from. simpl.
  induction IH as [| k l Hk _ IHl]; simpl; [reflexivity |].
  rewrite Hk, IHl. reflexivity.
Qed.

(** On a fragment that lxml parses to [doc], the cleaner not failing its
    assertion on it, the sanitizer returns the serialization of the tree
    that the cleaner makes of [doc]: the tree [cleaned] that it makes with
    [add_nofollow] off, after the [nofollow] pass.  [cleaned] holds exactly
    the text outside the killed elements of [doc] and has no killed
    element. *)
Lemma clean_html_returns `{Library} (html_string : string) (doc : node) :
  html_string ≠ "" →
  fromstring html_string = Returns doc →
  fails_assertion cleaner doc = false →
  ∃ cleaned,
    Cleaner_clean_html (without_nofollow cleaner) doc = Returns cleaned
    ∧ Cleaner_clean_html cleaner doc = Returns (add_nofollow_pass cleaned)
    ∧ clean_html html_string = Returns (tostring (add_nofollow_pass cleaned))
    ∧ concat_strings (text_nodes [cleaned])
      = concat_strings (surviving_text cleaner false doc)
    ∧ (∀ p, only_killed p → p "div" = false → has_tag p cleaned = false).
Proof.
  intros Hne Hparse Hfails.
  destruct (prune_root_scrub doc Hfails) as (pruned & Hprune & Htext & Hno).
  assert (Hcall :
    Cleaner_clean_html cleaner doc
    = Returns (add_nofollow_pass (drop_unknown_root pruned))).
  { unfold Cleaner_clean_html, Cleaner_call. rewrite Hprune. reflexivity. }
  exists (drop_unknown_root pruned).
  split; [| split; [| split; [| split]]].
  - unfold Cleaner_clean_html, Cleaner_call.
    rewrite scrub_without_nofollow, prune_root_without_nofollow, Hprune.
    reflexivity.
  - exact Hcall.
  - unfold clean_html. simpl. apply String.eqb_neq in Hne. rewrite Hne, Hparse.
    simpl. rewrite Hcall. reflexivity.
  - rewrite text_nodes_drop_unknown_root. exact Htext.
  - intros p Hp Hdiv.
    apply has_tag_drop_unknown_root; [exact Hdiv | apply Hno; assumption].
Qed.

(** ** Scripts and styles *)




(** ** Hyperlinks *)

(** C8 (as amended). On a fragment that lxml parses, the cleaner not
    failing its assertion on it, the sanitizer returns the serialization of
    the tree [out] that the cleaner makes of it.  Every anchor of [out]
    whose [href] is not blank and does not start with [#] has [nofollow] in
    its [rel]; and [out] is the tree that the same cleaner makes with
    [add_nofollow] off, but for these anchors: an anchor whose [href] is
    blank or starts with [#], an anchor without [href] and every other
    element have the attributes they have there.  The text of [out] is the
    text of the fragment outside the elements dropped with their content;
    [links=True] puts [<link>] among those and not [<a>], so link removal
    takes no anchor and no anchor text away. *)
Theorem external_links_marked_nofollow `{Library} (html_string : string)
    (doc : node) :
  html_string ≠ "" →
  fromstring html_string = Returns doc →
  fails_assertion cleaner doc = false →
  ∃ unmarked out,
    Cleaner_clean_html (without_nofollow cleaner) doc = Returns unmarked
    ∧ Cleaner_clean_html cleaner doc = Returns out
    ∧ clean_html html_string = Returns (tostring out)
    ∧ external_links_marked out = true
    ∧ only_external_marked unmarked out = true
    ∧ concat_strings (text_nodes [out])
      = concat_strings (surviving_text cleaner false doc)
    ∧ in_tags "link" (kill_tags cleaner) = true
    ∧ in_tags "a" (kill_tags cleaner) = false
    ∧ in_tags "a" (remove_tags cleaner) = false.
Proof.
  intros Hne Hparse Hfails.
  destruct (clean_html_returns html_string doc Hne Hparse Hfails)
    as (cleaned & Hoff & Hcall & Hout & Htext & _).
  exists cleaned, (add_nofollow_pass cleaned).
  split; [exact Hoff |]. split; [exact Hcall |]. split; [exact Hout |].
  split; [apply add_nofollow_marks |].
  split; [apply add_nofollow_only_external |].
  split; [rewrite text_nodes_add_nofollow; exact Htext |].
  repeat split.
Qed.

Lemma external_links_marked_nofollow_witness :
  @clean_html (sample.library [])
    "<p><a href='http://x.org/' rel='me'>out</a> <a href='#top'>up</a><a>no</a></p>"
  = Returns
      ("<p><a href=" +:+ bs4.dquote +:+ "http://x.org/" +:+ bs4.dquote
       +:+ " rel=" +:+ bs4.dquote +:+ "me nofollow" +:+ bs4.dquote
       +:+ ">out</a> <a href=" +:+ bs4.dquote +:+ "#top" +:+ bs4.dquote
       +:+ ">up</a><a>no</a></p>" +:+ newline)
  ∧ @Cleaner_clean_html (sample.library []) (without_nofollow cleaner)
      (Elem "p" []
         [Elem "a" [("href", "http://x.org/"); ("rel", "me")] [Text "out"];
          Text " ";
          Elem "a" [("href", "#top")] [Text "up"];
          Elem "a" [] [Text "no"]])
    = Returns
        (Elem "p" []
           [Elem "a" [("href", "http://x.org/"); ("rel", "me")] [Text "out"];
            Text " ";
            Elem "a" [("href", "#top")] [Text "up"];
            Elem "a" [] [Text "no"]])
  ∧ @Cleaner_clean_html (sample.library []) cleaner
      (Elem "p" []
         [Elem "a" [("href", "http://x.org/"); ("rel", "me")] [Text "out"];
          Text " ";
          Elem "a" [("href", "#top")] [Text "up"];
          Elem "a" [] [Text "no"]])
    = Returns
        (Elem "p" []
           [Elem "a" [("href", "http://x.org/"); ("rel", "me nofollow")]
              [Text "out"];
            Text " ";
            Elem "a" [("href", "#top")] [Text "up"];
            Elem "a" [] [Text "no"]]).
Proof.
  destruct (@external_links_marked_nofollow (sample.library [])
           "<p><a href='http://x.org/' rel='me'>out</a> <a href='#top'>up</a><a>no</a></p>"
           (Elem "p" []
              [Elem "a" [("href", "http://x.org/"); ("rel", "me")] [Text "out"];
               Text " ";
               Elem "a" [("href", "#top")] [Text "up"];
               Elem "a" [] [Text "no"]]))
    as (unmarked & out & Hoff & Hcall & Hout & _);
    [discriminate | reflexivity | reflexivity |].
  split; [| split].
  - rewrite Hout. vm_compute in Hcall. injection Hcall as <-. reflexivity.
  - reflexivity.
  - reflexivity.
Defined.

(** C8 (as stated) fails on a link into the page itself: the anchor stays
    in the output as it came, with its [href] and without any [rel]. *)
Lemma internal_link_not_marked :
  @fromstring (sample.library []) "<a href='#top'>up</a>"
    = Returns (Elem "a" [("href", "#top")] [Text "up"])
  ∧ @clean_html (sample.library []) "<a href='#top'>up</a>"
    = Returns ("<a href=" +:+ bs4.dquote +:+ "#top" +:+ bs4.dquote +:+ ">up</a>"
               +:+ newline)
  ∧ @Cleaner_clean_html (sample.library []) cleaner
      (Elem "a" [("href", "#top")] [Text "up"])
    = Returns (Elem "a" [("href", "#top")] [Text "up"])
  ∧ hyperlinks_marked (Elem "a" [("href", "#top")] [Text "up"]) = false.
Proof. repeat split; vm_compute; reflexivity. Qed.

(** ** The transformer's options *)







(** C1 (the defect). [substitutions] is not an option of markdownify: the
    mapping is stored and never read.  For each of the six levels, a
    heading with the text [Title] does not come out behind the run of [#]
    that the mapping gives it: [h1] and [h2] are underlined, [h3] to [h6]
    get three to six [#]. *)
Theorem heading_mapping_not_applied :
  md_converter_kwargs
  = [("escape_underscores", PyBool false);
     ("substitutions",
      PyList (map (λ kv : string * string, PyTuple [PyStr kv.1; PyStr kv.2])
                heading_mapping))]
  ∧ Forall
      (λ kv : string * string,
         ∃ output,
           @convert_to_markdown_with_details (sample.library [])
             ("<" +:+ kv.1 +:+ ">Title</" +:+ kv.1 +:+ ">")
           = Returns output
           ∧ begins_with_run kv.2 output = false)
      heading_mapping
  ∧ @convert_to_markdown_with_details (sample.library []) "<h1>Title</h1>"
    = Returns ("Title" +:+ newline +:+ "=====" +:+ newline +:+ newline)
  ∧ @convert_to_markdown_with_details (sample.library []) "<h3>Title</h3>"
    = Returns ("### Title" +:+ newline +:+ newline).
Proof.
  split; [reflexivity |]. split; [| split; reflexivity].
  repeat constructor; eexists; split; vm_compute; reflexivity.
Qed.

(** * Further properties of the script *)

(** ** The locator *)

Lemma head_filter_elem {A : Type} (p : A → bool) (l : list A) (x : A) :
  head (List.filter p l) = Some x → x ∈ l ∧ p x = true.
Proof.
  induction l as [| a l IH]; simpl; [discriminate |].
  destruct (p a) eqn:Ha; simpl.
  - intros [= <-]. split; [left | exact Ha].
  - intros Hx. destruct (IH Hx) as [Hin Hp]. split; [right; exact Hin | exact Hp].
Qed.

(** X1. A document with a [<main>] element: the locator returns the first
    [<main>] in document order, whatever else the document holds. *)
Theorem main_element_wins `{Library} (html_content : string) (e : node)
    (others : list node) :
  matching (BeautifulSoup html_content) "main" = e :: others →
  extract_main_content html_content = Some (bs4.str e).
Proof.
  intros Hmain. rewrite extract_main_content_spec. unfold locate_spec.
  cbn [List.find]. rewrite Hmain. cbn [forallb negb andb].
  rewrite Hmain. reflexivity.
Qed.

Lemma main_element_wins_witness :
  @extract_main_content (sample.library [])
    "<div id='content'>side</div><article>a</article><main>first</main><main>second</main>"
  = Some "<main>first</main>".
Proof.
  apply (@main_element_wins (sample.library [])
           "<div id='content'>side</div><article>a</article><main>first</main><main>second</main>"
           (Elem "main" [] [Text "first"]) [Elem "main" [] [Text "second"]]).
  reflexivity.
Defined.

(** X2. What the locator returns is the text of an element of the parsed
    document, one that a selector of the list or [body] selects; it is
    never the empty string. *)
Theorem region_is_document_element `{Library} (html_content region : string) :
  extract_main_content html_content = Some region →
  ∃ tag attrs children sel,
    Elem tag attrs children ∈ descendants (BeautifulSoup html_content)
    ∧ sel ∈ main_selectors ++ ["body"]
    ∧ bs4.matches (bs4.parse_selector sel) (Elem tag attrs children) = true
    ∧ region = bs4.str (Elem tag attrs children)
    ∧ region ≠ "".
Proof.
  rewrite extract_main_content_spec. unfold locate_spec.
  destruct (List.find _ _) as [sel |] eqn:Hfind.
  - apply List.find_some in Hfind as [Hsel _].
    destruct (head (matching _ sel)) as [n |] eqn:Hn; [| discriminate].
    apply head_filter_elem in Hn as [Hin Hmatch].
    destruct n as [s | s | tag attrs children]; try discriminate.
    intros [= <-]. exists tag, attrs, children, sel.
    split; [exact Hin |]. split.
    { apply elem_of_app. left. apply list_elem_of_In. exact Hsel. }
    split; [exact Hmatch |]. split; [reflexivity | apply str_not_empty].
  - destruct (head (matching _ "body")) as [n |] eqn:Hn; [| discriminate].
    apply head_filter_elem in Hn as [Hin Hmatch].
    destruct n as [s | s | tag attrs children]; try discriminate.
    intros [= <-]. exists tag, attrs, children, "body".
    split; [exact Hin |]. split.
    { apply elem_of_app. right. left. }
    split; [exact Hmatch |]. split; [reflexivity | apply str_not_empty].
Qed.

Lemma region_is_document_element_witness :
  ∃ tag attrs children sel,
    Elem tag attrs children
      ∈ descendants (sample.parse "<div><article>x</article></div>")
    ∧ sel ∈ main_selectors ++ ["body"]
    ∧ bs4.matches (bs4.parse_selector sel) (Elem tag attrs children) = true
    ∧ "<article>x</article>" = bs4.str (Elem tag attrs children)
    ∧ "<article>x</article>" ≠ "".
Proof.
  apply (@region_is_document_element (sample.library [])
           "<div><article>x</article></div>"). reflexivity.
Defined.

(** X3. A document in which the parser finds no element at all (text and
    comments only) has no content region. *)
Theorem document_without_elements_absent `{Library} (html_content : string) :
  forallb (λ n, negb (is_element n)) (descendants (BeautifulSoup html_content))
  = true →
  extract_main_content html_content = None.
Proof. apply no_elements_absent. Qed.

Lemma document_without_elements_absent_witness :
  @extract_main_content (sample.library []) "a < b <!-- note --> c" = None.
Proof.
  apply (@document_without_elements_absent (sample.library [])
           "a < b <!-- note --> c").
  reflexivity.
Defined.

(** ** The orchestrator, case by case *)

(** Every run of [scrape_robustly]: what it prints and how it ends,
    according to what the browser, the locator and the sanitizer do. *)
Lemma scrape_robustly_cases `{Library} (url : string) :
  scrape_robustly url =
  match page_content url with
  | Raises e =>
      (["Fetching page with Playwright...";
        "Error with Playwright: " +:+ exn_message e],
       Returns FetchFailed)
  | Returns html =>
      if String.eqb html "" then
        (["Fetching page with Playwright..."], Returns FetchFailed)
      else
        match extract_main_content html with
        | None =>
            (["Fetching page with Playwright...";
              "Identifying main content area..."],
             Returns NoContentFound)
        | Some region =>
            match clean_html region with
            | Raises e =>
                (["Fetching page with Playwright...";
                  "Identifying main content area..."; "Cleaning HTML..."],
                 Raises e)
            | Returns cleaned =>
                (["Fetching page with Playwright...";
                  "Identifying main content area..."; "Cleaning HTML...";
                  "Converting to Markdown..."],
                 convert_to_markdown_with_details cleaned)
            end
        end
  end.
Proof.
  unfold scrape_robustly, get_page_source_with_js.
  destruct (page_content url) as [html | e]; [| reflexivity].
  cbn. destruct (String.eqb html "") eqn:Hempty; [reflexivity |].
  cbn. destruct (extract_main_content html) as [region |] eqn:Hregion;
    [| reflexivity].
  pose proof (extract_main_content_truthy _ _ Hregion) as Htruthy.
  cbn in Htruthy. cbn. rewrite Htruthy. cbn.
  destruct (clean_html region) as [cleaned | e]; [| reflexivity].
  cbn. destruct (convert_to_markdown_with_details cleaned); reflexivity.
Qed.






(** ** The entry point *)


(** X9. When the sanitizer raises, the entry point ends with that
    exception, prints neither of its two closing lines and writes
    nothing. *)
Theorem script_main_propagates `{Library} (files : gmap string string)
    (html region : string) (e : exn) :
  page_content url = Returns html →
  html ≠ "" →
  extract_main_content html = Some region →
  clean_html region = Raises e →
  script_main files
  = (files,
     (["Fetching page with Playwright..."; "Identifying main content area...";
       "Cleaning HTML..."],
      Raises e)).
Proof.
  intros Hpage Hne Hregion Hclean. unfold script_main.
  rewrite scrape_robustly_cases, Hpage.
  apply String.eqb_neq in Hne. rewrite Hne, Hregion, Hclean. reflexivity.
Qed.


Lemma script_main_propagates_witness :
  @script_main (sample.library [(url, "<param class='main'>")]) ∅
  = (∅,
     (["Fetching page with Playwright..."; "Identifying main content area...";
       "Cleaning HTML..."],
      Raises (Exception "AssertionError" ""))).
Proof.
  apply (@script_main_propagates (sample.library [(url, "<param class='main'>")]) ∅
           "<param class='main'>"
           (bs4.str (Elem "param" [("class", "main")] [])));
    [reflexivity | discriminate | reflexivity | reflexivity].
Defined.

(** ** What the sanitizer leaves behind *)

Lemma any_node_prune (on_element : string → list (string * string) → bool)
    (on_comment in_object : bool) (n : node) :
  any_node on_element false n = false →
  existsb (any_node on_element on_comment) (prune cleaner in_object n) = false.
Proof.
  revert in_object.
  induction n as [s | s | tag attrs children IH] using node_ind';
    intros in_object; try (intros _; reflexivity).
  cbn [any_node]. intros Hn. apply orb_false_elim in Hn as [Htag Hkids].
  cbn [prune]. destruct (_ && _); [reflexivity |].
  destruct (in_tags tag (kill_tags cleaner)); [reflexivity |].
  assert (Hkids' :
    existsb (any_node on_element on_comment)
      (join_text (flat_map
         (prune cleaner
            (in_object || String.eqb tag "applet" || String.eqb tag "object"))
         children)) = false).
  { apply existsb_joined_false; [reflexivity |]. clear -IH Hkids.
    induction IH as [| k l Hk _ IHl]; constructor;
      cbn in Hkids; apply orb_false_elim in Hkids as [Hk' Hl]; auto. }
  destruct (in_tags tag (remove_tags cleaner)); [exact Hkids' |].
  cbn. rewrite Htag, Hkids'. reflexivity.
Qed.

Lemma any_node_prune_root (on_element : string → list (string * string) → bool)
    (on_comment : bool) (doc pruned : node) :
  is_element doc = true →
  on_element "div" [] = false →
  any_node on_element false doc = false →
  prune_root cleaner doc = Returns pruned →
  any_node on_element on_comment pruned = false.
Proof.
  destruct doc as [s | s | tag attrs children]; try discriminate.
  intros _ Hdiv Hn. cbn [any_node] in Hn.
  apply orb_false_elim in Hn as [Htag Hkids].
  unfold prune_root. destruct (_ && _); [discriminate |].
  assert (Hkids' :
    existsb (any_node on_element on_comment)
      (join_text (flat_map
         (prune cleaner (String.eqb tag "applet" || String.eqb tag "object"))
         children)) = false).
  { apply existsb_joined_false; [reflexivity |].
    induction children as [| k l IHl]; constructor;
      cbn in Hkids; apply orb_false_elim in Hkids as [Hk' Hl];
      [apply any_node_prune; exact Hk' | auto]. }
  destruct (in_tags tag (kill_tags cleaner)) eqn:Hkill.
  - cbv zeta. destruct (existsb (queued cleaner _) children); [discriminate |].
    intros [= <-]. cbn.
    destruct (String.eqb tag "html") eqn:Hhtml.
    + apply String.eqb_eq in Hhtml. subst tag. discriminate.
    + rewrite Hdiv. reflexivity.
  - destruct (in_tags tag (remove_tags cleaner)); intros [= <-]; cbn;
      rewrite ?Hdiv, ?Htag, Hkids'; reflexivity.
Qed.

Lemma any_node_drop_unknown `{Library}
    (on_element : string → list (string * string) → bool) (on_comment : bool)
    (n : node) :
  any_node on_element on_comment n = false →
  existsb (any_node on_element on_comment) (drop_unknown n) = false.
Proof.
  induction n as [s | s | tag attrs children IH] using node_ind'.
  - intros _. reflexivity.
  - cbn. intros ->. reflexivity.
  - cbn [any_node]. intros Hn. apply orb_false_elim in Hn as [Htag Hkids].
    assert (Hkids' :
      existsb (any_node on_element on_comment) (join_text (flat_map drop_unknown children))
      = false).
    { apply existsb_joined_false; [reflexivity |]. clear -IH Hkids.
      induction IH as [| k l Hk _ IHl]; constructor;
        cbn in Hkids; apply orb_false_elim in Hkids as [Hk' Hl]; auto. }
    cbn [drop_unknown]. destruct (defs_tags tag); [| exact Hkids'].
    cbn. rewrite Htag, Hkids'. reflexivity.
Qed.

Lemma any_node_drop_unknown_root `{Library}
    (on_element : string → list (string * string) → bool) (on_comment : bool)
    (doc : node) :
  on_element "div" [] = false →
  any_node on_element on_comment doc = false →
  any_node on_element on_comment (drop_unknown_root doc) = false.
Proof.
  intros Hdiv. destruct doc as [s | s | tag attrs children]; try (intros H0; exact H0).
  cbn [any_node]. intros Hn. apply orb_false_elim in Hn as [Htag Hkids].
  assert (Hkids' :
    existsb (any_node on_element on_comment) (join_text (flat_map drop_unknown children))
    = false).
  { apply existsb_joined_false; [reflexivity |].
    induction children as [| k l IHl]; constructor;
      cbn in Hkids; apply orb_false_elim in Hkids as [Hk' Hl];
      [apply any_node_drop_unknown; exact Hk' | auto]. }
  cbn [drop_unknown_root]. destruct (defs_tags tag); cbn;
    rewrite ?Htag, ?Hdiv, Hkids'; reflexivity.
Qed.

Lemma any_node_add_nofollow
    (on_element : string → list (string * string) → bool) (on_comment : bool)
    (n : node) :
  (∀ tag attrs, on_element tag attrs = false →
     on_element tag (mark_nofollow tag attrs) = false) →
  any_node on_element on_comment n = false →
  any_node on_element on_comment (add_nofollow_pass n) = false.
Proof.
  intros Hmark.
  induction n as [s | s | tag attrs children IH] using node_ind';
    try (intros H0; exact H0).
  cbn [any_node add_nofollow_pass]. intros Hn.
  apply orb_false_elim in Hn as [Htag Hkids]. rewrite (Hmark _ _ Htag).
  cbn. clear -IH Hkids.
  induction IH as [| k l Hk _ IHl]; [reflexivity |].
  cbn in *. apply orb_false_elim in Hkids as [Hk' Hl].
  rewrite (Hk Hk'), (IHl Hl). reflexivity.
Qed.

Lemma any_node_scrub `{Library}
    (on_element : string → list (string * string) → bool) (n : node) :
  (∀ tag attrs, on_element tag (scrub_attrs cleaner tag attrs) = false) →
  any_node on_element false (scrub cleaner n) = false.
Proof.
  intros Hscrub.
  induction n as [s | s | tag attrs children IH] using node_ind';
    try reflexivity.
  cbn [scrub any_node]. rewrite Hscrub. cbn.
  induction IH as [| k l Hk _ IHl]; [reflexivity |].
  cbn. rewrite Hk, IHl. reflexivity.
Qed.

Lemma scrub_attrs_clean `{Library} (tag : string) (attrs : list (string * string)) :
  existsb (λ kv : string * string, is_handler_or_style kv.1)
    (scrub_attrs cleaner tag attrs) = false.
Proof.
  unfold scrub_attrs. cbn [javascript inline_style cleaner Cleaner_defaults].
  induction attrs as [| [k v] r IH]; [reflexivity |].
  cbn [List.filter fst snd].
  destruct (startswith "on" k) eqn:Hon; cbn [negb]; [exact IH |].
  cbn [map List.filter fst snd].
  destruct (String.eqb k "style") eqn:Hstyle; cbn [negb]; [exact IH |].
  cbn [existsb fst]. unfold is_handler_or_style at 1.
  rewrite Hon, Hstyle. exact IH.
Qed.

Lemma existsb_set_attr (p : string → bool) (key value : string)
    (attrs : list (string * string)) :
  p key = false →
  existsb (λ kv : string * string, p kv.1) attrs = false →
  existsb (λ kv : string * string, p kv.1) (set_attr key value attrs) = false.
Proof.
  intros Hkey. induction attrs as [| [k v] r IH]; cbn.
  - intros _. rewrite Hkey. reflexivity.
  - intros Hattrs. apply orb_false_elim in Hattrs as [Hk Hr].
    destruct (String.eqb k key); cbn; rewrite Hk; [exact Hr | apply IH, Hr].
Qed.

Lemma mark_nofollow_clean (p : string → bool) (tag : string)
    (attrs : list (string * string)) :
  p "rel" = false →
  existsb (λ kv : string * string, p kv.1) attrs = false →
  existsb (λ kv : string * string, p kv.1) (mark_nofollow tag attrs) = false.
Proof.
  intros Hrel Hattrs. unfold mark_nofollow.
  destruct (String.eqb tag "a"); [| exact Hattrs].
  destruct (bs4.get_attr "href" attrs); [| exact Hattrs].
  destruct (is_external_href _); [| exact Hattrs].
  destruct (nofollow_rel _); [| exact Hattrs].
  apply existsb_set_attr; assumption.
Qed.

(** X10. On a fragment that lxml parses to an element on which the
    cleaner does not fail its assertion, the sanitizer returns the
    serialization of the tree that the cleaner makes of it, and this tree
    has no comment, no [style] attribute and no attribute whose name starts
    with [on]. *)
Theorem sanitizer_strips_comments_styles_handlers `{Library}
    (html_string : string) (doc : node) :
  html_string ≠ "" →
  fromstring html_string = Returns doc →
  is_element doc = true →
  fails_assertion cleaner doc = false →
  ∃ out,
    Cleaner_clean_html cleaner doc = Returns out
    ∧ clean_html html_string = Returns (tostring out)
    ∧ has_comment out = false
    ∧ has_attr is_handler_or_style out = false.
Proof.
  intros Hne Hparse Helem Hfails.
  destruct (prune_root_scrub doc Hfails) as (pruned & Hprune & _ & _).
  exists (add_nofollow_pass (drop_unknown_root pruned)).
  assert (Helem' : is_element (scrub cleaner doc) = true).
  { destruct doc; try discriminate. reflexivity. }
  assert (Hcall :
    Cleaner_clean_html cleaner doc
    = Returns (add_nofollow_pass (drop_unknown_root pruned))).
  { unfold Cleaner_clean_html, Cleaner_call. rewrite Hprune. reflexivity. }
  split; [exact Hcall |]. split; [| split].
  - unfold clean_html. cbn. apply String.eqb_neq in Hne. rewrite Hne, Hparse.
    cbn. rewrite Hcall. reflexivity.
  - apply any_node_add_nofollow; [intros tag attrs _; reflexivity |].
    apply any_node_drop_unknown_root; [reflexivity |].
    apply (any_node_prune_root _ true (scrub cleaner doc));
      [exact Helem' | reflexivity | | exact Hprune].
    apply any_node_scrub. intros tag attrs. reflexivity.
  - apply any_node_add_nofollow.
    { intros tag attrs. apply mark_nofollow_clean. reflexivity. }
    apply any_node_drop_unknown_root; [reflexivity |].
    apply (any_node_prune_root _ false (scrub cleaner doc));
      [exact Helem' | reflexivity | | exact Hprune].
    apply any_node_scrub. intros tag attrs. apply scrub_attrs_clean.
Qed.

Lemma sanitizer_strips_comments_styles_handlers_witness :
  @clean_html (sample.library [])
    "<div style='color:red' onclick='go()' id='x'><!-- note --><p STYLE='a'>text</p></div>"
  = Returns ("<div id=" +:+ bs4.dquote +:+ "x" +:+ bs4.dquote
             +:+ "><p>text</p></div>" +:+ newline)
  ∧ @Cleaner_clean_html (sample.library []) cleaner
      (Elem "div" [("style", "color:red"); ("onclick", "go()"); ("id", "x")]
         [Comment " note "; Elem "p" [("style", "a")] [Text "text"]])
    = Returns (Elem "div" [("id", "x")] [Elem "p" [] [Text "text"]]).
Proof.
  destruct (@sanitizer_strips_comments_styles_handlers (sample.library [])
           "<div style='color:red' onclick='go()' id='x'><!-- note --><p STYLE='a'>text</p></div>"
           (Elem "div" [("style", "color:red"); ("onclick", "go()"); ("id", "x")]
              [Comment " note "; Elem "p" [("style", "a")] [Text "text"]]))
    as (out & Hcall & Hout & _);
    [discriminate | reflexivity | reflexivity | reflexivity |].
  split; [| reflexivity].
  rewrite Hout. vm_compute in Hcall. injection Hcall as <-. reflexivity.
Defined.

(** X11. The root cannot be dropped.  When lxml parses the fragment to an
    element that the policy kills (a lone [<script>], [<button>],
    [<select>], ...), the cleaner clears it: the sanitizer returns the
    serialization of an empty [<div>], nothing of the fragment is left;
    unless one of the children of the root is a comment or an element that
    the policy kills or removes, on which the cleaner fails its assertion
    and the sanitizer raises. *)
Theorem killed_root_becomes_empty_div `{Library} (html_string tag : string)
    (attrs : list (string * string)) (children : list node) :
  html_string ≠ "" →
  fromstring html_string = Returns (Elem tag attrs children) →
  in_tags tag (kill_tags cleaner) = true →
  clean_html html_string
  = if existsb (queued cleaner (String.eqb tag "applet")) children
    then Raises (Exception "AssertionError" "")
    else Returns (tostring (Elem "div" [] [])).
Proof.
  intros Hne Hparse Hkill.
  assert (Hfails :
    fails_assertion cleaner (Elem tag attrs children)
    = existsb (queued cleaner (String.eqb tag "applet")) children).
  { unfold fails_assertion. rewrite Hkill.
    destruct (String.eqb tag "param") eqn:Hparam.
    { apply String.eqb_eq in Hparam. subst tag. discriminate. }
    destruct (String.eqb tag "object") eqn:Hobject.
    { apply String.eqb_eq in Hobject. subst tag. discriminate. }
    rewrite andb_false_r, orb_false_r. reflexivity. }
  assert (Hcall :
    Cleaner_clean_html cleaner (Elem tag attrs children)
    = if existsb (queued cleaner (String.eqb tag "applet")) children
      then Raises (Exception "AssertionError" "")
      else Returns (Elem "div" [] [])).
  { unfold Cleaner_clean_html, Cleaner_call.
    rewrite <- Hfails, <- fails_assertion_scrub.
    destruct (fails_assertion cleaner (scrub cleaner (Elem tag attrs children)))
      eqn:Hscrubbed.
    - rewrite (prune_root_fails _ _ Hscrubbed). reflexivity.
    - revert Hscrubbed. cbn [scrub].
      destruct (String.eqb tag "image") eqn:Himage.
      { apply String.eqb_eq in Himage. subst tag. discriminate. }
      unfold fails_assertion, prune_root. rewrite Hkill.
      destruct (embedded cleaner && String.eqb tag "param"); [discriminate |].
      intros Hqueued. apply orb_false_elim in Hqueued as [_ Hqueued].
      cbn [andb] in Hqueued. cbv zeta. rewrite Hqueued.
      destruct (String.eqb tag "html") eqn:Hhtml.
      { apply String.eqb_eq in Hhtml. subst tag. discriminate. }
      cbn. destruct (defs_tags "div"); reflexivity. }
  remember (Elem tag attrs children) as doc eqn:Hdoc.
  unfold clean_html. cbn. apply String.eqb_neq in Hne. rewrite Hne, Hparse.
  cbn. rewrite Hcall.
  destruct (existsb (queued cleaner (String.eqb tag "applet")) children);
    reflexivity.
Qed.

Lemma killed_root_becomes_empty_div_witness :
  @clean_html (sample.library []) "<button onclick='buy()'>Buy <b>now</b></button>"
  = Returns ("<div></div>" +:+ newline)
  ∧ @clean_html (sample.library []) "<button><!--c-->x</button>"
    = Raises (Exception "AssertionError" "").
Proof.
  split.
  - rewrite (@killed_root_becomes_empty_div (sample.library [])
               "<button onclick='buy()'>Buy <b>now</b></button>" "button"
               [("onclick", "buy()")] [Text "Buy "; Elem "b" [] [Text "now"]]);
      [reflexivity | discriminate | reflexivity | reflexivity].
  - rewrite (@killed_root_becomes_empty_div (sample.library [])
               "<button><!--c-->x</button>" "button" []
               [Comment "c"; Text "x"]);
      [reflexivity | discriminate | reflexivity | reflexivity].
Defined.

(** ** The transformer *)



(** ** Cleaning twice *)

Lemma any_node_or_false (qa qb : string → list (string * string) → bool)
    (ca cb : bool) (n : node) :
  any_node qa ca n = false →
  any_node qb cb n = false →
  any_node (λ tag attrs, qa tag attrs || qb tag attrs) (ca || cb) n = false.
Proof.
  induction n as [s | s | tag attrs children IH] using node_ind'.
  - reflexivity.
  - cbn. intros -> ->. reflexivity.
  - cbn [any_node]. intros Ha Hb.
    apply orb_false_elim in Ha as [Ha Hka]. apply orb_false_elim in Hb as [Hb Hkb].
    rewrite Ha, Hb. cbn. clear -IH Hka Hkb.
    induction IH as [| k l Hk _ IHl]; [reflexivity |].
    cbn in *. apply orb_false_elim in Hka as [Hka Hla].
    apply orb_false_elim in Hkb as [Hkb Hlb].
    rewrite (Hk Hka Hkb), (IHl Hla Hlb). reflexivity.
Qed.

(** After the attribute passes no element is called [image]. *)
Lemma scrub_no_image `{Library} (n : node) :
  any_node (λ tag _, String.eqb tag "image") false (scrub cleaner n) = false.
Proof.
  induction n as [s | s | tag attrs children IH] using node_ind';
    try reflexivity.
  cbn [scrub any_node].
  assert (Htag : String.eqb (if String.eqb tag "image" then "img" else tag) "image"
                 = false).
  { destruct (String.eqb tag "image") eqn:Himage; [reflexivity | exact Himage]. }
  rewrite Htag. cbn.
  induction IH as [| k l Hk _ IHl]; [reflexivity |].
  cbn. rewrite Hk, IHl. reflexivity.
Qed.

(** After the structural pass nothing below the root is a comment or an
    element to kill or to remove. *)
Lemma prune_leaves_none (in_object : bool) (n : node) :
  existsb
    (any_node
       (λ tag _, in_tags tag (kill_tags cleaner) || in_tags tag (remove_tags cleaner))
       true)
    (prune cleaner in_object n) = false.
Proof.
  revert in_object.
  induction n as [s | s | tag attrs children IH] using node_ind';
    intros in_object; try reflexivity.
  cbn [prune]. destruct (_ && _); [reflexivity |].
  destruct (in_tags tag (kill_tags cleaner)) eqn:Hkill; [reflexivity |].
  assert (Hkids :
    existsb
      (any_node
         (λ tag _, in_tags tag (kill_tags cleaner) || in_tags tag (remove_tags cleaner))
         true)
      (join_text (flat_map
         (prune cleaner
            (in_object || String.eqb tag "applet" || String.eqb tag "object"))
         children)) = false).
  { apply existsb_joined_false; [reflexivity |].
    eapply Forall_impl; [exact IH |]. intros k Hk. apply Hk. }
  destruct (in_tags tag (remove_tags cleaner)) eqn:Hremove; [exact Hkids |].
  cbn. rewrite Hkill, Hremove, Hkids. reflexivity.
Qed.

Lemma prune_root_leaves_none (doc pruned : node) :
  is_element doc = true →
  prune_root cleaner doc = Returns pruned →
  any_node
    (λ tag _, in_tags tag (kill_tags cleaner) || in_tags tag (remove_tags cleaner))
    true pruned = false.
Proof.
  destruct doc as [s | s | tag attrs children]; try discriminate.
  intros _. unfold prune_root. destruct (_ && _); [discriminate |].
  assert (Hkids :
    existsb
      (any_node
         (λ tag _, in_tags tag (kill_tags cleaner) || in_tags tag (remove_tags cleaner))
         true)
      (join_text (flat_map
         (prune cleaner (String.eqb tag "applet" || String.eqb tag "object"))
         children)) = false).
  { apply existsb_joined_false; [reflexivity |]. apply Forall_forall. intros k _.
    apply prune_leaves_none. }
  destruct (in_tags tag (kill_tags cleaner)) eqn:Hkill.
  - cbv zeta. destruct (existsb (queued cleaner _) children); [discriminate |].
    intros [= <-]. cbn.
    destruct (String.eqb tag "html") eqn:Hhtml; [| reflexivity].
    apply String.eqb_eq in Hhtml. subst tag. discriminate.
  - destruct (in_tags tag (remove_tags cleaner)) eqn:Hremove; intros [= <-]; cbn.
    + exact Hkids.
    + rewrite Hkill, Hremove, Hkids. reflexivity.
Qed.

(** After the unknown-tag pass every element below the root is known. *)
Lemma drop_unknown_known `{Library} (n : node) :
  existsb (any_node (λ tag _, negb (defs_tags tag)) false) (drop_unknown n) = false.
Proof.
  induction n as [s | s | tag attrs children IH] using node_ind';
    try reflexivity.
  cbn [drop_unknown].
  assert (Hkids :
    existsb (any_node (λ tag _, negb (defs_tags tag)) false)
      (join_text (flat_map drop_unknown children)) = false).
  { apply existsb_joined_false; [reflexivity |]. exact IH. }
  destruct (defs_tags tag) eqn:Hknown; [| exact Hkids].
  cbn. rewrite Hknown, Hkids. reflexivity.
Qed.

Lemma drop_unknown_root_known `{Library} (doc : node) :
  defs_tags "div" = true →
  any_node (λ tag _, negb (defs_tags tag)) false (drop_unknown_root doc) = false.
Proof.
  intros Hdiv. destruct doc as [s | s | tag attrs children]; try reflexivity.
  cbn [drop_unknown_root].
  assert (Hkids :
    existsb (any_node (λ tag _, negb (defs_tags tag)) false)
      (join_text (flat_map drop_unknown children)) = false).
  { apply existsb_joined_false; [reflexivity |]. apply Forall_forall. intros k _.
    apply drop_unknown_known. }
  destruct (defs_tags tag) eqn:Hknown; cbn; rewrite ?Hknown, ?Hdiv, Hkids; reflexivity.
Qed.

Lemma scrub_attrs_stable `{Library} (tag : string) (attrs : list (string * string)) :
  (∀ tag key value,
     remove_javascript_link tag key (remove_javascript_link tag key value)
     = remove_javascript_link tag key value) →
  forallb (stable_attr tag) (scrub_attrs cleaner tag attrs) = true.
Proof.
  intros Hlink. unfold scrub_attrs.
  cbn [javascript inline_style cleaner Cleaner_defaults].
  induction attrs as [| [k v] r IH]; [reflexivity |].
  cbn [List.filter fst snd].
  destruct (startswith "on" k) eqn:Hon; cbn [negb]; [exact IH |].
  cbn [map List.filter fst snd].
  destruct (String.eqb k "style") eqn:Hstyle; cbn [negb]; [exact IH |].
  cbn [forallb]. rewrite IH, andb_true_r.
  unfold stable_attr, is_handler_or_style. cbn [fst snd].
  rewrite Hon, Hstyle, Hlink. cbn. apply String.eqb_refl.
Qed.

Lemma scrub_attrs_fixed `{Library} (tag : string) (attrs : list (string * string)) :
  forallb (stable_attr tag) attrs = true →
  scrub_attrs cleaner tag attrs = attrs.
Proof.
  unfold scrub_attrs. cbn [javascript inline_style cleaner Cleaner_defaults].
  induction attrs as [| [k v] r IH]; [reflexivity |].
  cbn [forallb]. intros Hattrs. apply andb_prop in Hattrs as [Hkv Hr].
  unfold stable_attr, is_handler_or_style in Hkv. cbn [fst snd] in Hkv.
  apply andb_prop in Hkv as [Hname Hvalue].
  apply negb_true_iff, orb_false_elim in Hname as [Hon Hstyle].
  apply String.eqb_eq in Hvalue.
  cbn [List.filter fst snd]. rewrite Hon. cbn [negb map List.filter fst snd].
  rewrite Hstyle. cbn [negb]. rewrite Hvalue. f_equal. apply IH, Hr.
Qed.

Lemma forallb_set_attr (p : string * string → bool) (key value : string)
    (attrs : list (string * string)) :
  (∀ v, p (key, v) = p (key, value)) →
  p (key, value) = true →
  forallb p attrs = true →
  forallb p (set_attr key value attrs) = true.
Proof.
  intros Hany Hkey. induction attrs as [| [k v] r IH]; cbn.
  - intros _. rewrite Hkey. reflexivity.
  - intros Hattrs. apply andb_prop in Hattrs as [Hk Hr].
    destruct (String.eqb k key) eqn:Heq; cbn.
    + apply String.eqb_eq in Heq. subst k. rewrite Hkey, Hr. reflexivity.
    + rewrite Hk, (IH Hr). reflexivity.
Qed.

Lemma mark_nofollow_stable `{Library} (tag : string) (attrs : list (string * string)) :
  (∀ tag value, remove_javascript_link tag "rel" value = value) →
  forallb (stable_attr tag) attrs = true →
  forallb (stable_attr tag) (mark_nofollow tag attrs) = true.
Proof.
  intros Hrel Hattrs. unfold mark_nofollow.
  destruct (String.eqb tag "a"); [| exact Hattrs].
  destruct (bs4.get_attr "href" attrs); [| exact Hattrs].
  destruct (is_external_href _); [| exact Hattrs].
  destruct (nofollow_rel _); [| exact Hattrs].
  assert (Hstable : ∀ v, stable_attr tag ("rel", v) = true).
  { intros v. unfold stable_attr. cbn [fst snd]. rewrite Hrel.
    rewrite String.eqb_refl. reflexivity. }
  apply forallb_set_attr; [| apply Hstable | exact Hattrs].
  intros v. rewrite !Hstable. reflexivity.
Qed.

(** The passes before the last leave a clean tree as it is. *)
Lemma scrub_clean `{Library} (n : node) :
  any_node unclean_element true n = false → scrub cleaner n = n.
Proof.
  induction n as [s | s | tag attrs children IH] using node_ind';
    try reflexivity.
  cbn [any_node]. intros Hn. apply orb_false_elim in Hn as [Hel Hkids].
  unfold unclean_element in Hel.
  apply orb_false_elim in Hel as [Hel Hattrs].
  apply orb_false_elim in Hel as [Hel _].
  apply orb_false_elim in Hel as [Himage _].
  apply negb_false_iff in Hattrs.
  cbn [scrub]. rewrite Himage, (scrub_attrs_fixed tag attrs Hattrs). f_equal.
  clear -IH Hkids. induction IH as [| k l Hk _ IHl]; [reflexivity |].
  cbn in *. apply orb_false_elim in Hkids as [Hk' Hl].
  rewrite (Hk Hk'), (IHl Hl). reflexivity.
Qed.

Lemma not_removed_not_param (tag : string) :
  in_tags tag (remove_tags cleaner) = false → String.eqb tag "param" = false.
Proof.
  intros Hremove. destruct (String.eqb tag "param") eqn:Hparam; [| reflexivity].
  apply String.eqb_eq in Hparam. subst tag. discriminate.
Qed.

Lemma prune_clean `{Library} (in_object : bool) (n : node) :
  any_node unclean_element true n = false →
  joined n = true →
  prune cleaner in_object n = [n].
Proof.
  revert in_object.
  induction n as [s | s | tag attrs children IH] using node_ind';
    intros in_object; [reflexivity | intros Hn; discriminate Hn |].
  cbn [any_node]. intros Hn. apply orb_false_elim in Hn as [Hel Hkids].
  cbn [joined]. intros Hjoined. apply andb_prop in Hjoined as [Hadjacent Hjoined].
  unfold unclean_element in Hel.
  apply orb_false_elim in Hel as [Hel _].
  apply orb_false_elim in Hel as [Hel _].
  apply orb_false_elim in Hel as [_ Hel].
  apply orb_false_elim in Hel as [Hkill Hremove].
  cbn [prune]. rewrite (not_removed_not_param tag Hremove), andb_false_r.
  cbn [andb]. rewrite Hkill, Hremove. do 2 f_equal.
  generalize (in_object || String.eqb tag "applet" || String.eqb tag "object").
  intros flag.
  assert (Hall : flat_map (prune cleaner flag) children = children).
  { clear -IH Hkids Hjoined. induction IH as [| k l Hk _ IHl]; [reflexivity |].
    cbn [existsb forallb flat_map] in *.
    apply orb_false_elim in Hkids as [Hk' Hl].
    apply andb_prop in Hjoined as [Hjk Hjl].
    rewrite (Hk flag Hk' Hjk), (IHl Hl Hjl). reflexivity. }
  rewrite Hall. apply join_text_fixed, Hadjacent.
Qed.

Lemma prune_root_clean `{Library} (n : node) :
  is_element n = true →
  any_node unclean_element true n = false →
  joined n = true →
  prune_root cleaner n = Returns n.
Proof.
  destruct n as [s | s | tag attrs children]; try discriminate.
  intros _. cbn [any_node]. intros Hn. apply orb_false_elim in Hn as [Hel Hkids].
  cbn [joined]. intros Hjoined. apply andb_prop in Hjoined as [Hadjacent Hjoined].
  unfold unclean_element in Hel.
  apply orb_false_elim in Hel as [Hel _].
  apply orb_false_elim in Hel as [Hel _].
  apply orb_false_elim in Hel as [_ Hel].
  apply orb_false_elim in Hel as [Hkill Hremove].
  unfold prune_root. rewrite (not_removed_not_param tag Hremove), andb_false_r.
  rewrite Hkill, Hremove. do 2 f_equal.
  generalize (String.eqb tag "applet" || String.eqb tag "object").
  intros flag.
  assert (Hall : flat_map (prune cleaner flag) children = children).
  { clear -Hkids Hjoined. induction children as [| k l IHl]; [reflexivity |].
    cbn [existsb forallb flat_map] in *.
    apply orb_false_elim in Hkids as [Hk' Hl].
    apply andb_prop in Hjoined as [Hjk Hjl].
    rewrite (prune_clean flag k Hk' Hjk), (IHl Hl Hjl). reflexivity. }
  rewrite Hall. apply join_text_fixed, Hadjacent.
Qed.

Lemma drop_unknown_clean `{Library} (n : node) :
  any_node unclean_element true n = false →
  joined n = true →
  drop_unknown n = [n].
Proof.
  induction n as [s | s | tag attrs children IH] using node_ind';
    try reflexivity.
  cbn [any_node]. intros Hn. apply orb_false_elim in Hn as [Hel Hkids].
  cbn [joined]. intros Hjoined. apply andb_prop in Hjoined as [Hadjacent Hjoined].
  unfold unclean_element in Hel.
  apply orb_false_elim in Hel as [Hel _].
  apply orb_false_elim in Hel as [_ Hknown].
  apply negb_false_iff in Hknown.
  cbn [drop_unknown]. rewrite Hknown. do 2 f_equal.
  assert (Hall : flat_map drop_unknown children = children).
  { clear -IH Hkids Hjoined. induction IH as [| k l Hk _ IHl]; [reflexivity |].
    cbn [existsb forallb flat_map] in *.
    apply orb_false_elim in Hkids as [Hk' Hl].
    apply andb_prop in Hjoined as [Hjk Hjl].
    rewrite (Hk Hk' Hjk), (IHl Hl Hjl). reflexivity. }
  rewrite Hall. apply join_text_fixed, Hadjacent.
Qed.

Lemma drop_unknown_root_clean `{Library} (n : node) :
  any_node unclean_element true n = false →
  joined n = true →
  drop_unknown_root n = n.
Proof.
  destruct n as [s | s | tag attrs children]; try reflexivity.
  cbn [any_node]. intros Hn. apply orb_false_elim in Hn as [Hel Hkids].
  cbn [joined]. intros Hjoined. apply andb_prop in Hjoined as [Hadjacent Hjoined].
  unfold unclean_element in Hel.
  apply orb_false_elim in Hel as [Hel _].
  apply orb_false_elim in Hel as [_ Hknown].
  apply negb_false_iff in Hknown.
  cbn [drop_unknown_root]. rewrite Hknown. f_equal.
  assert (Hall : flat_map drop_unknown children = children).
  { clear -Hkids Hjoined. induction children as [| k l IHl]; [reflexivity |].
    cbn [existsb forallb flat_map] in *.
    apply orb_false_elim in Hkids as [Hk' Hl].
    apply andb_prop in Hjoined as [Hjk Hjl].
    rewrite (drop_unknown_clean k Hk' Hjk), (IHl Hl Hjl). reflexivity. }
  rewrite Hall. apply join_text_fixed, Hadjacent.
Qed.

(** What the unknown-tag pass returns has its runs of text joined, and the
    [nofollow] pass keeps them so. *)
Lemma drop_unknown_joined `{Library} (n : node) :
  forallb joined (drop_unknown n) = true.
Proof.
  induction n as [s | s | tag attrs children IH] using node_ind';
    try reflexivity.
  cbn [drop_unknown].
  assert (Hkids :
    forallb joined (join_text (flat_map drop_unknown children)) = true).
  { rewrite forallb_join_text by reflexivity. clear -IH.
    induction IH as [| k l Hk _ IHl]; [reflexivity |].
    cbn [flat_map]. rewrite List.forallb_app, Hk, IHl. reflexivity. }
  destruct (defs_tags tag); [| exact Hkids].
  cbn [forallb joined]. rewrite join_text_joined, Hkids. reflexivity.
Qed.

Lemma drop_unknown_root_joined `{Library} (doc : node) :
  joined (drop_unknown_root doc) = true.
Proof.
  destruct doc as [s | s | tag attrs children]; try reflexivity.
  cbn [drop_unknown_root].
  assert (Hkids :
    forallb joined (join_text (flat_map drop_unknown children)) = true).
  { rewrite forallb_join_text by reflexivity.
    induction children as [| k l IHl]; [reflexivity |].
    cbn [flat_map]. rewrite List.forallb_app, drop_unknown_joined, IHl.
    reflexivity. }
  destruct (defs_tags tag); cbn [joined]; rewrite join_text_joined, Hkids;
    reflexivity.
Qed.

Lemma add_nofollow_joined (n : node) :
  joined (add_nofollow_pass n) = joined n.
Proof.
  induction n as [s | s | tag attrs children IH] using node_ind';
    try reflexivity.
  cbn [add_nofollow_pass joined]. f_equal.
  - clear IH. induction children as [| k l IHl]; [reflexivity |].
    cbn [map text_joined]. rewrite IHl.
    destruct k, l as [| [] ?]; reflexivity.
  - induction IH as [| k l Hk _ IHl]; [reflexivity |].
    cbn [map forallb]. rewrite Hk, IHl. reflexivity.
Qed.

Lemma nofollow_rel_written (rel : option string) (written : string) :
  nofollow_rel rel = Some written → nofollow_rel (Some written) = None.
Proof.
  assert (Hplain : nofollow_rel (Some "nofollow") = None) by reflexivity.
  unfold nofollow_rel at 1. destruct rel as [r |]; [| intros [= <-]; exact Hplain].
  destruct (String.eqb r "") eqn:Hempty; cbn [negb];
    [intros [= <-]; exact Hplain |].
  destruct (contains "nofollow" r && contains " nofollow " (" " +:+ r +:+ " "));
    [discriminate |].
  intros [= <-]. unfold nofollow_rel.
  assert (Hne : String.eqb (r +:+ " nofollow") "" = false).
  { destruct r; [discriminate | reflexivity]. }
  rewrite Hne. cbn [negb].
  assert (Hword : contains "nofollow" (r +:+ " nofollow") = true).
  { change (r +:+ " nofollow") with (r +:+ (" " +:+ "nofollow")).
    rewrite <- append_assoc. apply contains_app. }
  rewrite Hword. cbn [andb].
  pose proof (has_nofollow_appended r) as Hhas. unfold has_nofollow in Hhas.
  rewrite Hhas. reflexivity.
Qed.

Lemma mark_nofollow_twice (tag : string) (attrs : list (string * string)) :
  mark_nofollow tag (mark_nofollow tag attrs) = mark_nofollow tag attrs.
Proof.
  unfold mark_nofollow at 2.
  destruct (String.eqb tag "a") eqn:Ha;
    [| unfold mark_nofollow; rewrite Ha; reflexivity].
  destruct (bs4.get_attr "href" attrs) as [href |] eqn:Hhref;
    [| unfold mark_nofollow; rewrite Ha, Hhref; reflexivity].
  destruct (is_external_href href) eqn:Hext;
    [| unfold mark_nofollow; rewrite Ha, Hhref, Hext; reflexivity].
  destruct (nofollow_rel (bs4.get_attr "rel" attrs)) as [written |] eqn:Hrel;
    [| unfold mark_nofollow; rewrite Ha, Hhref, Hext, Hrel; reflexivity].
  unfold mark_nofollow. rewrite Ha.
  rewrite (get_attr_set_attr_ne "rel" "href") by discriminate.
  rewrite !Hhref, !Hext, get_attr_set_attr.
  rewrite (nofollow_rel_written _ _ Hrel), Hrel. reflexivity.
Qed.

Lemma add_nofollow_twice (n : node) :
  add_nofollow_pass (add_nofollow_pass n) = add_nofollow_pass n.
Proof.
  induction n as [s | s | tag attrs children IH] using node_ind';
    try reflexivity.
  cbn [add_nofollow_pass]. rewrite mark_nofollow_twice. f_equal.
  induction IH as [| k l Hk _ IHl]; [reflexivity |].
  cbn. rewrite Hk, IHl. reflexivity.
Qed.

Lemma is_element_prune_root (doc pruned : node) :
  is_element doc = true →
  prune_root cleaner doc = Returns pruned → is_element pruned = true.
Proof.
  destruct doc as [s | s | tag attrs children]; try discriminate.
  intros _. unfold prune_root. destruct (_ && _); [discriminate |].
  destruct (in_tags tag (kill_tags cleaner)).
  { cbv zeta. destruct (existsb (queued cleaner _) children); [discriminate |].
    intros [= <-]. reflexivity. }
  destruct (in_tags tag (remove_tags cleaner)); intros [= <-]; reflexivity.
Qed.

(** What the cleaner returns is clean. *)
Lemma Cleaner_call_clean `{Library} (doc pruned : node) :
  (∀ tag key value,
     remove_javascript_link tag key (remove_javascript_link tag key value)
     = remove_javascript_link tag key value) →
  (∀ tag value, remove_javascript_link tag "rel" value = value) →
  defs_tags "div" = true →
  is_element doc = true →
  prune_root cleaner (scrub cleaner doc) = Returns pruned →
  any_node unclean_element true (add_nofollow_pass (drop_unknown_root pruned))
  = false.
Proof.
  intros Hlink Hrel Hdiv Helem Hprune.
  assert (Helem' : is_element (scrub cleaner doc) = true).
  { destruct doc; try discriminate. reflexivity. }
  assert (H1 :
    any_node (λ tag _, String.eqb tag "image") false
      (add_nofollow_pass (drop_unknown_root pruned)) = false).
  { apply any_node_add_nofollow; [intros tag attrs Hq; exact Hq |].
    apply any_node_drop_unknown_root; [reflexivity |].
    apply (any_node_prune_root _ false (scrub cleaner doc));
      [exact Helem' | reflexivity | apply scrub_no_image | exact Hprune]. }
  assert (H2 :
    any_node
      (λ tag _, in_tags tag (kill_tags cleaner) || in_tags tag (remove_tags cleaner))
      true (add_nofollow_pass (drop_unknown_root pruned)) = false).
  { apply any_node_add_nofollow; [intros tag attrs Hq; exact Hq |].
    apply any_node_drop_unknown_root; [reflexivity |].
    apply (prune_root_leaves_none (scrub cleaner doc)); assumption. }
  assert (H3 :
    any_node (λ tag _, negb (defs_tags tag)) false
      (add_nofollow_pass (drop_unknown_root pruned)) = false).
  { apply any_node_add_nofollow; [intros tag attrs Hq; exact Hq |].
    apply drop_unknown_root_known, Hdiv. }
  assert (H4 :
    any_node (λ tag attrs, negb (forallb (stable_attr tag) attrs)) false
      (add_nofollow_pass (drop_unknown_root pruned)) = false).
  { apply any_node_add_nofollow.
    { intros tag attrs Hq. apply negb_false_iff in Hq. apply negb_false_iff.
      apply mark_nofollow_stable; assumption. }
    apply any_node_drop_unknown_root; [reflexivity |].
    apply (any_node_prune_root _ false (scrub cleaner doc));
      [exact Helem' | reflexivity | | exact Hprune].
    apply any_node_scrub. intros tag attrs. apply negb_false_iff.
    apply scrub_attrs_stable, Hlink. }
  exact (any_node_or_false _ _ _ _ _
           (any_node_or_false _ _ _ _ _ (any_node_or_false _ _ _ _ _ H1 H2) H3) H4).
Qed.

(** X15. Cleaning is idempotent on trees.  Provided the link rewriting
    returns its own results unchanged and leaves [rel] alone, and [div] is
    a known tag: the tree that the script's cleaner returns for an element
    is clean, and cleaning it again returns it as it is. *)
Theorem cleaning_twice_changes_nothing `{Library} (doc out : node) :
  (∀ tag key value,
     remove_javascript_link tag key (remove_javascript_link tag key value)
     = remove_javascript_link tag key value) →
  (∀ tag value, remove_javascript_link tag "rel" value = value) →
  defs_tags "div" = true →
  is_element doc = true →
  Cleaner_clean_html cleaner doc = Returns out →
  is_clean out = true ∧ Cleaner_clean_html cleaner out = Returns out.
Proof.
  intros Hlink Hrel Hdiv Helem. unfold Cleaner_clean_html, Cleaner_call.
  destruct (prune_root cleaner (scrub cleaner doc)) as [pruned | e] eqn:Hprune;
    [| discriminate].
  cbn. intros [= <-].
  pose proof (Cleaner_call_clean doc pruned Hlink Hrel Hdiv Helem Hprune) as Hclean.
  split; [unfold is_clean; rewrite Hclean; reflexivity |].
  assert (Helem' : is_element (add_nofollow_pass (drop_unknown_root pruned)) = true).
  { assert (Hp : is_element pruned = true).
    { apply (is_element_prune_root (scrub cleaner doc)); [| exact Hprune].
      destruct doc; try discriminate. reflexivity. }
    destruct pruned as [s | s | tag attrs children]; try discriminate.
    cbn. destruct (defs_tags tag); reflexivity. }
  assert (Hjoined : joined (add_nofollow_pass (drop_unknown_root pruned)) = true).
  { rewrite add_nofollow_joined. apply drop_unknown_root_joined. }
  rewrite (scrub_clean _ Hclean), (prune_root_clean _ Helem' Hclean Hjoined). cbn.
  rewrite (drop_unknown_root_clean _ Hclean Hjoined), add_nofollow_twice.
  reflexivity.
Qed.

(** The sample's link rewriting meets the two conditions. *)
Lemma is_blank_remove_spaces (s : string) :
  is_blank s = true → sample.remove_spaces s = "".
Proof.
  induction s as [| c s IH]; [reflexivity |].
  cbn. destruct (is_space c); [exact IH | discriminate].
Qed.

Lemma remove_spaces_lstrip (s : string) :
  sample.remove_spaces (lstrip s) = sample.remove_spaces s.
Proof.
  induction s as [| c s IH]; [reflexivity |].
  cbn. destruct (is_space c) eqn:Hc; [exact IH |].
  cbn. rewrite Hc. reflexivity.
Qed.

Lemma remove_spaces_rstrip (s : string) :
  sample.remove_spaces (rstrip s) = sample.remove_spaces s.
Proof.
  induction s as [| c s IH]; [reflexivity |].
  cbn [rstrip]. destruct (is_blank (String c s)) eqn:Hblank.
  - symmetry. apply is_blank_remove_spaces, Hblank.
  - cbn. rewrite IH. reflexivity.
Qed.

Lemma is_blank_rstrip (s : string) : is_blank (rstrip s) = is_blank s.
Proof.
  induction s as [| c s IH]; [reflexivity |].
  cbn [rstrip]. destruct (is_blank (String c s)) eqn:Hblank; [reflexivity |].
  cbn in *. rewrite IH. exact Hblank.
Qed.

Lemma rstrip_twice (s : string) : rstrip (rstrip s) = rstrip s.
Proof.
  induction s as [| c s IH]; [reflexivity |].
  cbn [rstrip]. destruct (is_blank (String c s)) eqn:Hblank; [reflexivity |].
  cbn [rstrip].
  assert (Hblank' : is_blank (String c (rstrip s)) = false).
  { cbn in *. rewrite is_blank_rstrip. exact Hblank. }
  rewrite Hblank', IH. reflexivity.
Qed.

Lemma lstrip_fixed (s : string) :
  lstrip s = s ∨ ∃ c r, s = String c r ∧ is_space c = true.
Proof.
  destruct s as [| c r]; [left; reflexivity |].
  cbn. destruct (is_space c) eqn:Hc; [right; eauto | left; reflexivity].
Qed.

Lemma lstrip_twice (s : string) : lstrip (lstrip s) = lstrip s.
Proof.
  induction s as [| c s IH]; [reflexivity |].
  cbn. destruct (is_space c) eqn:Hc; [exact IH |].
  cbn. rewrite Hc. reflexivity.
Qed.

Lemma lstrip_rstrip_lstrip (s : string) :
  lstrip (rstrip (lstrip s)) = rstrip (lstrip s).
Proof.
  induction s as [| c s IH]; [reflexivity |].
  cbn [lstrip]. destruct (is_space c) eqn:Hc; [exact IH |].
  cbn [rstrip]. destruct (is_blank (String c s)); [reflexivity |].
  cbn. rewrite Hc. reflexivity.
Qed.

Lemma strip_twice (s : string) : strip (strip s) = strip s.
Proof. unfold strip. rewrite lstrip_rstrip_lstrip. apply rstrip_twice. Qed.

Lemma remove_spaces_strip (s : string) :
  sample.remove_spaces (strip s) = sample.remove_spaces s.
Proof. unfold strip. rewrite remove_spaces_rstrip. apply remove_spaces_lstrip. Qed.

Lemma javascript_link_twice (tag key value : string) :
  sample.javascript_link tag key (sample.javascript_link tag key value)
  = sample.javascript_link tag key value.
Proof.
  unfold sample.javascript_link.
  destruct (existsb (String.eqb key) sample.link_attrs); [| reflexivity].
  destruct (existsb
              (λ scheme, String.prefix scheme (lower (sample.remove_spaces value)))
              sample.script_schemes
            && negb (String.prefix "data:image/" (lower (sample.remove_spaces value))))
    eqn:Hscript; [reflexivity |].
  rewrite remove_spaces_strip, Hscript. apply strip_twice.
Qed.

Lemma cleaning_twice_changes_nothing_witness :
  @is_clean (sample.library [])
    (Elem "div" []
       [Elem "a" [("href", "http://x.org/"); ("rel", "nofollow")] [Text "out"];
        Text "tail"]) = true
  ∧ @Cleaner_clean_html (sample.library []) cleaner
      (Elem "div" []
         [Elem "a" [("href", "http://x.org/"); ("rel", "nofollow")] [Text "out"];
          Text "tail"])
    = Returns
        (Elem "div" []
           [Elem "a" [("href", "http://x.org/"); ("rel", "nofollow")] [Text "out"];
            Text "tail"]).
Proof.
  apply (@cleaning_twice_changes_nothing (sample.library [])
           (Elem "main" [("onclick", "go()")]
              [Elem "a" [("href", " http://x.org/ "); ("style", "x")] [Text "out"];
               Elem "script" [] [Text "alert(1)"]; Comment "c"; Text "tail"]));
    [apply javascript_link_twice | reflexivity | reflexivity | reflexivity
    | reflexivity].
Defined.
